(** * Book-Tracker: the CRUD contract of [server.js] and the status view of
      [App.jsx]

    The backend ([server.js]) is an Express application over one SQLite
    table, [books], plus a proxy to the Google Books search API.  The client
    ([App.jsx]) keeps a copy of the collection and derives three status
    buckets from it.

    The development embeds the five request handlers as functions from a
    store and a request to a store and a response, the SQL statements they
    issue as operations on a list of rows, and the client's
    [categorizedBooks] as three list filters. *)

From Stdlib Require Import ZArith List String Ascii Bool Lia Permutation Sorted.
From Stdlib Require Import DecimalString DecimalPos DecimalZ.
From Stdlib Require QArith_base.
Import ListNotations.
Local Open Scope string_scope.
Local Open Scope Z_scope.

(** * JavaScript values

    Every field of a Book is text in the data model.  A field read from a
    JSON body or from a JSON response is therefore modelled as absent
    ([undefined]), [null] or a string.  Numbers, booleans, arrays and
    objects in these positions are outside this type; [Wire.Value] below
    has them, and [POST /books], whose check of title and status tells
    them apart, is embedded on it as well. *)

Module Js.

Inductive JsValue : Type :=
| JsUndefined
| JsNull
| JsString (s : string).

(** ToBoolean: [undefined], [null] and the empty string are falsy. *)
Definition truthy (v : JsValue) : bool :=
  match v with
  | JsString s => negb (String.eqb s "")
  | _ => false
  end.

(** [v !== undefined] *)
Definition defined (v : JsValue) : bool :=
  match v with
  | JsUndefined => false
  | _ => true
  end.

(** [v === lit] for a string literal [lit] *)
Definition strict_eq_string (v : JsValue) (lit : string) : bool :=
  match v with
  | JsString s => String.eqb s lit
  | _ => false
  end.

(** [a || b] *)
Definition or (a b : JsValue) : JsValue :=
  if truthy a then a else b.

(** Truthiness of a value that is either [undefined] or a string, such
    as a query-string parameter or an environment variable. *)
Definition truthy_opt (v : option string) : bool :=
  match v with
  | Some s => negb (String.eqb s "")
  | None => false
  end.

End Js.
Import Js.

(** * The [books] table

    [CREATE TABLE books (id INTEGER PRIMARY KEY AUTOINCREMENT,
    title TEXT NOT NULL, author TEXT, status TEXT NOT NULL, notes TEXT,
    coverImageUrl TEXT)].  A cell of a TEXT column is NULL ([None]) or a
    text. *)

Definition Cell : Type := option string.

Module Book.
Record Row : Type := mkRow {
  id : Z;
  title : Cell;
  author : Cell;
  status : Cell;
  notes : Cell;
  coverImageUrl : Cell
}.
End Book.

Inductive Column : Type :=
| ColTitle | ColAuthor | ColStatus | ColNotes | ColCoverImageUrl.

Definition column_name (c : Column) : string :=
  match c with
  | ColTitle => "title"
  | ColAuthor => "author"
  | ColStatus => "status"
  | ColNotes => "notes"
  | ColCoverImageUrl => "coverImageUrl"
  end.

Definition get_col (c : Column) (r : Book.Row) : Cell :=
  match c with
  | ColTitle => Book.title r
  | ColAuthor => Book.author r
  | ColStatus => Book.status r
  | ColNotes => Book.notes r
  | ColCoverImageUrl => Book.coverImageUrl r
  end.

Definition set_col (c : Column) (v : Cell) (r : Book.Row) : Book.Row :=
  match c with
  | ColTitle =>
      Book.mkRow (Book.id r) v (Book.author r) (Book.status r) (Book.notes r)
        (Book.coverImageUrl r)
  | ColAuthor =>
      Book.mkRow (Book.id r) (Book.title r) v (Book.status r) (Book.notes r)
        (Book.coverImageUrl r)
  | ColStatus =>
      Book.mkRow (Book.id r) (Book.title r) (Book.author r) v (Book.notes r)
        (Book.coverImageUrl r)
  | ColNotes =>
      Book.mkRow (Book.id r) (Book.title r) (Book.author r) (Book.status r) v
        (Book.coverImageUrl r)
  | ColCoverImageUrl =>
      Book.mkRow (Book.id r) (Book.title r) (Book.author r) (Book.status r)
        (Book.notes r) v
  end.

(** The table in rowid order, together with the largest rowid that ever
    existed in it (what AUTOINCREMENT keeps in [sqlite_sequence]). *)
Record Store : Type := mkStore {
  books : list Book.Row;
  sqlite_sequence : Z
}.

Definition empty_store : Store := mkStore [] 0.

(** What the driver binds for a statement parameter: [undefined] and
    [null] become NULL, a string becomes a TEXT. *)
Definition bind (v : JsValue) : Cell :=
  match v with
  | JsString s => Some s
  | _ => None
  end.

(** [status = ?] in a WHERE clause: NULL equals nothing, texts compare
    byte for byte. *)
Definition sql_text_eq (c : Cell) (p : Cell) : bool :=
  match c, p with
  | Some a, Some b => String.eqb a b
  | _, _ => false
  end.

(** The two NOT NULL columns. *)
Definition not_null_violation (r : Book.Row) : option Column :=
  match Book.title r, Book.status r with
  | None, _ => Some ColTitle
  | _, None => Some ColStatus
  | _, _ => None
  end.

Definition constraint_message (c : Column) : string :=
  "SQLITE_CONSTRAINT: NOT NULL constraint failed: books." ++ column_name c.

(** What the callback of [db.run] sees: [err], or [this.lastID] and
    [this.changes]. *)
Inductive RunResult : Type :=
| RunError (message : string)
| RunDone (lastID : Z) (changes : nat).

Section Database.

(** [WHERE id = ?] compares the INTEGER column [id] with the text taken
    from the route.  SQLite converts the text to a number when it reads as
    one; [rowid_of_text t] is the rowid that the text [t] is equal to, if
    there is one. *)
Variable rowid_of_text : string -> option Z.

Definition id_matches (idp : string) (r : Book.Row) : bool :=
  match rowid_of_text idp with
  | Some n => Z.eqb (Book.id r) n
  | None => false
  end.

(** [db.all('SELECT * FROM books' [+ ' WHERE status = ?'], params)] *)
Definition db_all (s : Store) (params : list string) : list Book.Row :=
  match params with
  | [] => books s
  | p :: _ => filter (fun r => sql_text_eq (Book.status r) (Some p)) (books s)
  end.

(** [INSERT INTO books (title, author, status, notes, coverImageUrl)
    VALUES (?, ?, ?, ?, ?)] *)
Definition db_run_insert (s : Store)
    (title author status notes coverImageUrl : JsValue) : Store * RunResult :=
  let lastID := sqlite_sequence s + 1 in
  let r := Book.mkRow lastID (bind title) (bind author) (bind status)
             (bind notes) (bind coverImageUrl) in
  match not_null_violation r with
  | Some c => (s, RunError (constraint_message c))
  | None => (mkStore (books s ++ [r]) lastID, RunDone lastID 1)
  end.

(** The SET clause applied to one row, left to right. *)
Definition assign (sets : list (Column * JsValue)) (r : Book.Row) : Book.Row :=
  fold_left (fun acc cv => set_col (fst cv) (bind (snd cv)) acc) sets r.

(** The first row named by the WHERE clause whose new contents would
    break a NOT NULL constraint, in rowid order. *)
Fixpoint first_violation (sets : list (Column * JsValue)) (idp : string)
    (rows : list Book.Row) : option Column :=
  match rows with
  | [] => None
  | r :: rest =>
      if id_matches idp r then
        match not_null_violation (assign sets r) with
        | Some c => Some c
        | None => first_violation sets idp rest
        end
      else first_violation sets idp rest
  end.

(** [UPDATE books SET c1 = ?, ... WHERE id = ?].  A statement that
    violates a constraint changes nothing. *)
Definition db_run_update (s : Store) (sets : list (Column * JsValue))
    (idp : string) : Store * RunResult :=
  let hit := fun r => id_matches idp r in
  match first_violation sets idp (books s) with
  | Some c => (s, RunError (constraint_message c))
  | None =>
      (mkStore (map (fun r => if hit r then assign sets r else r) (books s))
               (sqlite_sequence s),
       RunDone (sqlite_sequence s) (List.length (filter hit (books s))))
  end.

(** [DELETE FROM books WHERE id = ?] *)
Definition db_run_delete (s : Store) (idp : string) : Store * RunResult :=
  let hit := fun r => id_matches idp r in
  (mkStore (filter (fun r => negb (hit r)) (books s)) (sqlite_sequence s),
   RunDone (sqlite_sequence s) (List.length (filter hit (books s)))).

End Database.

(** * Requests and responses *)

(** [req.body] of [POST /books] and [PUT /books/:id], destructured into
    the five fields the handlers read. *)
Module Body.
Record t : Type := mk {
  title : JsValue;
  author : JsValue;
  status : JsValue;
  notes : JsValue;
  coverImageUrl : JsValue
}.
End Body.

(** The Google Books volume list, reduced to the fields [server.js]
    reads. *)
Module Volume.
Record ImageLinks : Type := mkImageLinks {
  thumbnail : JsValue;
  smallThumbnail : JsValue
}.
Record VolumeInfo : Type := mkVolumeInfo {
  title : JsValue;
  authors : option (list string);
  imageLinks : option ImageLinks;
  description : JsValue
}.
Record Item : Type := mkItem { volumeInfo : VolumeInfo }.
Record Data : Type := mkData { items : option (list Item) }.
End Volume.

(** One element of the array [GET /search-books] answers with. *)
Module Found.
Record t : Type := mk {
  title : JsValue;
  author : string;
  coverImageUrl : JsValue;
  description : JsValue
}.
End Found.

(** What [await fetch(url)] gives: it throws, or it resolves to a response
    with a status, a status text and a body that parses as JSON or does
    not. *)
Module Fetch.
Record Response : Type := mkResponse {
  status : Z;
  statusText : string;
  json : option Volume.Data
}.
(** [response.ok]: the status is in the range 200-299. *)
Definition ok (r : Response) : bool :=
  (200 <=? status r) && (status r <=? 299).
Inductive Outcome : Type :=
| Throws (message : string)
| Resolves (response : Response).
End Fetch.

(** The JSON documents the handlers send. *)
Inductive Json : Type :=
| JRows (rows : list Book.Row)
| JBook (id : Z) (title author status notes coverImageUrl : JsValue)
| JError (error : string)
| JMessage (message : string)
| JMessageId (message : string) (id : string)
| JFound (books : list Found.t).

Record Response : Type := mkResponse {
  statusCode : Z;
  json : Json
}.

Inductive Request : Type :=
| GetBooks (statusFilter : option string)
| PostBooks (body : Body.t)
| PutBooks (id : string) (body : Body.t)
| DeleteBooks (id : string)
| SearchBooks (q : option string).

(** The two fixed 500 messages of [GET /search-books]. *)
Definition key_not_configured : string :=
  "Google Books API key is not configured on the server. Please check backend setup.".

Definition upstream_failed : string :=
  "Failed to search books from external API. Check server console for details.".

(** * The handlers of [server.js] *)

Section Server.

Variable rowid_of_text : string -> option Z.
(** [process.env.GOOGLE_BOOKS_API_KEY] *)
Variable GOOGLE_BOOKS_API_KEY : option string.
Variable encodeURIComponent : string -> string.
(** The outcome of [fetch] for a given URL. *)
Variable fetch : string -> Fetch.Outcome.

(** [app.get('/books')] *)
Definition get_books (s : Store) (statusFilter : option string)
  : Store * Response :=
  let params :=
    match statusFilter with
    | Some f => if truthy_opt statusFilter then [f] else []
    | None => []
    end in
  (s, mkResponse 200 (JRows (db_all s params))).

(** [app.post('/books')] *)
Definition post_books (s : Store) (body : Body.t) : Store * Response :=
  let title := Body.title body in
  let author := Body.author body in
  let status := Body.status body in
  let notes := Body.notes body in
  let coverImageUrl := Body.coverImageUrl body in
  if negb (truthy title) || negb (truthy status) then
    (s, mkResponse 400 (JError "Title and Status are required."))
  else
    match db_run_insert s title author status notes coverImageUrl with
    | (s', RunError message) => (s', mkResponse 500 (JError message))
    | (s', RunDone lastID _) =>
        (s', mkResponse 201
               (JBook lastID title author status notes coverImageUrl))
    end.

(** [if (v !== undefined) { updates.push('c = ?'); params.push(v); }] *)
Definition push_if_defined (c : Column) (v : JsValue)
    (updates : list (Column * JsValue)) : list (Column * JsValue) :=
  if defined v then updates ++ [(c, v)] else updates.

Definition updates_of (body : Body.t) : list (Column * JsValue) :=
  push_if_defined ColCoverImageUrl (Body.coverImageUrl body)
    (push_if_defined ColNotes (Body.notes body)
      (push_if_defined ColStatus (Body.status body)
        (push_if_defined ColAuthor (Body.author body)
          (push_if_defined ColTitle (Body.title body) [])))).

(** [app.put('/books/:id')] *)
Definition put_books (s : Store) (id : string) (body : Body.t)
  : Store * Response :=
  let updates := updates_of body in
  if Nat.eqb (List.length updates) 0 then
    (s, mkResponse 400 (JError "No fields provided for update."))
  else
    match db_run_update rowid_of_text s updates id with
    | (s', RunError message) => (s', mkResponse 500 (JError message))
    | (s', RunDone _ changes) =>
        if Nat.eqb changes 0 then
          (s', mkResponse 404 (JMessage "Book not found."))
        else
          (s', mkResponse 200 (JMessageId "Book updated successfully." id))
    end.

(** [app.delete('/books/:id')] *)
Definition delete_books (s : Store) (id : string) : Store * Response :=
  match db_run_delete rowid_of_text s id with
  | (s', RunError message) => (s', mkResponse 500 (JError message))
  | (s', RunDone _ changes) =>
      if Nat.eqb changes 0 then
        (s', mkResponse 404 (JMessage "Book not found."))
      else
        (s', mkResponse 200 (JMessageId "Book deleted successfully." id))
  end.

Definition googleBooksApiUrl (query key : string) : string :=
  "https://www.googleapis.com/books/v1/volumes?q="
    ++ encodeURIComponent query ++ "&key=" ++ key ++ "&maxResults=5".

(** [authors.join(', ')] *)
Definition join_authors (authors : list string) : string :=
  String.concat ", " authors.

(** The arrow function mapped over [data.items]. *)
Definition found_of_item (item : Volume.Item) : Found.t :=
  let info := Volume.volumeInfo item in
  Found.mk
    (Js.or (Volume.title info) (JsString "N/A"))
    (match Volume.authors info with
     | Some authors => join_authors authors
     | None => "N/A"
     end)
    (match Volume.imageLinks info with
     | Some links =>
         Js.or (Volume.thumbnail links) (Volume.smallThumbnail links)
     | None => JsNull
     end)
    (Js.or (Volume.description info) (JsString "No description available.")).

(** [app.get('/search-books')] *)
Definition search_books (q : option string) : Response :=
  match q with
  | None => mkResponse 400 (JError "Search query (q) is required.")
  | Some query =>
      if negb (truthy_opt q) then
        mkResponse 400 (JError "Search query (q) is required.")
      else
        match GOOGLE_BOOKS_API_KEY with
        | None =>
            mkResponse 500 (JError key_not_configured)
        | Some key =>
            if negb (truthy_opt GOOGLE_BOOKS_API_KEY) then
              mkResponse 500 (JError key_not_configured)
            else
              match fetch (googleBooksApiUrl query key) with
              | Fetch.Throws _ =>
                  mkResponse 500 (JError upstream_failed)
              | Fetch.Resolves response =>
                  if negb (Fetch.ok response) then
                    mkResponse (Fetch.status response)
                      (JError ("Google Books API error: "
                                 ++ Fetch.statusText response
                                 ++ ". Check server console for details."))
                  else
                    match Fetch.json response with
                    | None =>
                        mkResponse 500 (JError upstream_failed)
                    | Some data =>
                        mkResponse 200
                          (JFound
                             (match Volume.items data with
                              | Some items => map found_of_item items
                              | None => []
                              end))
                    end
              end
        end
  end.

(** One request against the store. *)
Definition handle (s : Store) (req : Request) : Store * Response :=
  match req with
  | GetBooks statusFilter => get_books s statusFilter
  | PostBooks body => post_books s body
  | PutBooks id body => put_books s id body
  | DeleteBooks id => delete_books s id
  | SearchBooks q => (s, search_books q)
  end.

(** The store states the server can be in: the empty table, and whatever
    a request makes of a reachable state. *)
Inductive reachable : Store -> Prop :=
| reachable_empty : reachable empty_store
| reachable_handle (s : Store) (req : Request) :
    reachable s -> reachable (fst (handle s req)).

End Server.

(** * The client's status view ([App.jsx]) *)

Module Client.

(** An element of the [books] state, as parsed from the server's JSON. *)
Record Book : Type := mkBook {
  id : Z;
  title : JsValue;
  author : JsValue;
  status : JsValue;
  notes : JsValue;
  coverImageUrl : JsValue
}.

(** [arr.filter(p)]: the new array, and the receiver after the call. *)
Definition Array_filter {A : Type} (p : A -> bool) (arr : list A)
  : list A * list A :=
  (filter p arr, arr).

(** The object with the keys ['Want to Read'], ['Reading'] and
    ['Finished']. *)
Record Categorized : Type := mkCategorized {
  Want_to_Read : list Book;
  Reading : list Book;
  Finished : list Book
}.

(** [const categorizedBooks = { ... }]: the three buckets, and [books]
    after the three calls. *)
Definition categorizedBooks (books : list Book) : Categorized * list Book :=
  let '(want, books1) :=
    Array_filter (fun book => strict_eq_string (status book) "Want to Read")
      books in
  let '(reading, books2) :=
    Array_filter (fun book => strict_eq_string (status book) "Reading")
      books1 in
  let '(finished, books3) :=
    Array_filter (fun book => strict_eq_string (status book) "Finished")
      books2 in
  (mkCategorized want reading finished, books3).

End Client.

(** * [POST /books] on every JSON body

    [express.json()] hands the handler whatever JSON the request carried:
    a field of [req.body] may also be a boolean, a number, an array or an
    object.  [Wire.Value] is a field as parsed; [Js.JsValue] above is the
    part of it a text field takes ([Wire.of_js]). *)

Module Wire.

Inductive Value : Type :=
| Absent                           (* no such key: [undefined] *)
| Null
| Bool (b : bool)
| Number (n : QArith_base.Q)       (* a JSON number; [-0] is [0] *)
| Text (s : string)
| Composite (source : string).     (* an array or an object, by its JSON text *)

(** ToBoolean: [undefined], [null], [false], [0] and the empty string are
    falsy; every array and object is truthy. *)
Definition truthy (v : Value) : bool :=
  match v with
  | Absent => false
  | Null => false
  | Bool b => b
  | Number n => negb (Z.eqb (QArith_base.Qnum n) 0)
  | Text s => negb (String.eqb s "")
  | Composite _ => true
  end.

Definition of_js (v : JsValue) : Value :=
  match v with
  | JsUndefined => Absent
  | JsNull => Null
  | JsString s => Text s
  end.

(** [req.body], destructured. *)
Record Body : Type := mkBody {
  title : Value;
  author : Value;
  status : Value;
  notes : Value;
  coverImageUrl : Value
}.

Definition body_of_js (body : Body.t) : Body :=
  mkBody (of_js (Body.title body)) (of_js (Body.author body))
    (of_js (Body.status body)) (of_js (Body.notes body))
    (of_js (Body.coverImageUrl body)).

(** The two documents [POST /books] sends. *)
Inductive Json : Type :=
| JBook (id : Z) (title author status notes coverImageUrl : Value)
| JError (error : string).

Record Response : Type := mkResponse {
  statusCode : Z;
  json : Json
}.

End Wire.

Section PostJson.

(** The text a TEXT column holds once the driver has bound a boolean, a
    number, an array or an object. *)
Variable driver_text : Wire.Value -> string.

(** What the driver binds for a parsed field. *)
Definition bind_value (v : Wire.Value) : Cell :=
  match v with
  | Wire.Absent => None
  | Wire.Null => None
  | Wire.Text s => Some s
  | other => Some (driver_text other)
  end.

(** [INSERT INTO books (title, author, status, notes, coverImageUrl)
    VALUES (?, ?, ?, ?, ?)], on the bound cells. *)
Definition db_run_insert_cells (s : Store)
    (title author status notes coverImageUrl : Cell) : Store * RunResult :=
  let lastID := sqlite_sequence s + 1 in
  let r := Book.mkRow lastID title author status notes coverImageUrl in
  match not_null_violation r with
  | Some c => (s, RunError (constraint_message c))
  | None => (mkStore (books s ++ [r]) lastID, RunDone lastID 1)
  end.

(** [app.post('/books')] *)
Definition post_books_json (s : Store) (body : Wire.Body)
  : Store * Wire.Response :=
  let title := Wire.title body in
  let author := Wire.author body in
  let status := Wire.status body in
  let notes := Wire.notes body in
  let coverImageUrl := Wire.coverImageUrl body in
  if negb (Wire.truthy title) || negb (Wire.truthy status) then
    (s, Wire.mkResponse 400 (Wire.JError "Title and Status are required."))
  else
    match db_run_insert_cells s (bind_value title) (bind_value author)
            (bind_value status) (bind_value notes) (bind_value coverImageUrl)
    with
    | (s', RunError message) =>
        (s', Wire.mkResponse 500 (Wire.JError message))
    | (s', RunDone lastID _) =>
        (s', Wire.mkResponse 201
               (Wire.JBook lastID title author status notes coverImageUrl))
    end.

Variable rowid_of_text : string -> option Z.
Variable GOOGLE_BOOKS_API_KEY : option string.
Variable encodeURIComponent : string -> string.
Variable fetch : string -> Fetch.Outcome.

(** The stores the server can be in when bodies are any JSON: as
    [reachable], with Create on every parsed body. *)
Inductive reachable_json : Store -> Prop :=
| reachable_json_empty : reachable_json empty_store
| reachable_json_handle (s : Store) (req : Request) :
    reachable_json s ->
    reachable_json
      (fst (handle rowid_of_text GOOGLE_BOOKS_API_KEY encodeURIComponent fetch
              s req))
| reachable_json_post (s : Store) (body : Wire.Body) :
    reachable_json s -> reachable_json (fst (post_books_json s body)).

End PostJson.


(** * Sequences of requests *)

Section Traces.

Variable rowid_of_text : string -> option Z.
Variable GOOGLE_BOOKS_API_KEY : option string.
Variable encodeURIComponent : string -> string.
Variable fetch : string -> Fetch.Outcome.

(** The store after a list of requests, served one after the other. *)
Fixpoint run (s : Store) (reqs : list Request) : Store :=
  match reqs with
  | [] => s
  | req :: rest =>
      run (fst (handle rowid_of_text GOOGLE_BOOKS_API_KEY encodeURIComponent
                  fetch s req)) rest
  end.

End Traces.

(** * The component state and the handlers of [App.jsx]

    A handler runs in two parts: what it does before [await fetch(...)],
    which yields the request it sends, and what it does once the fetch has
    settled.  The second part reads the values its closure captured (the
    state of the render in which the handler was created) and writes, field
    by field, into the state current at that time. *)

(** [`${n}`] for an integer [n]. *)
Definition number_to_string (n : Z) : string :=
  NilZero.string_of_int (Z.to_int n).

(** A NULL cell arrives as [null], a text as a string. *)
Definition json_of_cell (c : Cell) : JsValue :=
  match c with
  | Some s => JsString s
  | None => JsNull
  end.

(** A row of [GET /books] as the client parses it. *)
Definition book_of_row (r : Book.Row) : Client.Book :=
  Client.mkBook (Book.id r) (json_of_cell (Book.title r))
    (json_of_cell (Book.author r)) (json_of_cell (Book.status r))
    (json_of_cell (Book.notes r)) (json_of_cell (Book.coverImageUrl r)).

Definition client_field (c : Column) (b : Client.Book) : JsValue :=
  match c with
  | ColTitle => Client.title b
  | ColAuthor => Client.author b
  | ColStatus => Client.status b
  | ColNotes => Client.notes b
  | ColCoverImageUrl => Client.coverImageUrl b
  end.

Module App.

(** The argument [updates] of [handleUpdateBook]: an object with some of
    the five Book keys.  [None] is a key the object does not have. *)
Record Updates : Type := mkUpdates {
  u_title : option JsValue;
  u_author : option JsValue;
  u_status : option JsValue;
  u_notes : option JsValue;
  u_coverImageUrl : option JsValue
}.

Definition update_key (c : Column) (u : Updates) : option JsValue :=
  match c with
  | ColTitle => u_title u
  | ColAuthor => u_author u
  | ColStatus => u_status u
  | ColNotes => u_notes u
  | ColCoverImageUrl => u_coverImageUrl u
  end.

(** [{ status: value }] *)
Definition status_update (value : string) : Updates :=
  mkUpdates None None (Some (JsString value)) None None.

(** [JSON.stringify(updates)] as the server reads it back: a key that is
    not there, or whose value is [undefined], reads as [undefined]. *)
Definition body_of_updates (u : Updates) : Body.t :=
  let read := fun k => match k with Some v => v | None => JsUndefined end in
  Body.mk (read (u_title u)) (read (u_author u)) (read (u_status u))
    (read (u_notes u)) (read (u_coverImageUrl u)).

(** [{ ...book, ...updates }] *)
Definition spread (book : Client.Book) (u : Updates) : Client.Book :=
  let over := fun k old => match k with Some v => v | None => old end in
  Client.mkBook (Client.id book)
    (over (u_title u) (Client.title book))
    (over (u_author u) (Client.author book))
    (over (u_status u) (Client.status book))
    (over (u_notes u) (Client.notes book))
    (over (u_coverImageUrl u) (Client.coverImageUrl book)).

(** The argument of [setMessage]. *)
Record Message : Type := mkMessage {
  text : string;
  isError : bool
}.

(** The [useState] cells of [App]. *)
Record State : Type := mkState {
  books : list Client.Book;
  view : string;
  newBookTitle : JsValue;
  newBookAuthor : string;
  newBookStatus : string;
  newBookNotes : string;
  newBookCoverImageUrl : JsValue;
  searchResults : list Found.t;
  searchQuery : string;
  loading : bool;
  error : option string;
  message : option Message
}.

Definition initial : State :=
  mkState [] "list" (JsString "") "" "Want to Read" "" (JsString "") [] ""
    false None None.

Definition setBooks (v : list Client.Book) (st : State) : State :=
  mkState v (view st) (newBookTitle st) (newBookAuthor st) (newBookStatus st)
    (newBookNotes st) (newBookCoverImageUrl st) (searchResults st)
    (searchQuery st) (loading st) (error st) (message st).

Definition setView (v : string) (st : State) : State :=
  mkState (books st) v (newBookTitle st) (newBookAuthor st) (newBookStatus st)
    (newBookNotes st) (newBookCoverImageUrl st) (searchResults st)
    (searchQuery st) (loading st) (error st) (message st).

Definition setNewBookTitle (v : JsValue) (st : State) : State :=
  mkState (books st) (view st) v (newBookAuthor st) (newBookStatus st)
    (newBookNotes st) (newBookCoverImageUrl st) (searchResults st)
    (searchQuery st) (loading st) (error st) (message st).

Definition setNewBookAuthor (v : string) (st : State) : State :=
  mkState (books st) (view st) (newBookTitle st) v (newBookStatus st)
    (newBookNotes st) (newBookCoverImageUrl st) (searchResults st)
    (searchQuery st) (loading st) (error st) (message st).

Definition setNewBookStatus (v : string) (st : State) : State :=
  mkState (books st) (view st) (newBookTitle st) (newBookAuthor st) v
    (newBookNotes st) (newBookCoverImageUrl st) (searchResults st)
    (searchQuery st) (loading st) (error st) (message st).

Definition setNewBookNotes (v : string) (st : State) : State :=
  mkState (books st) (view st) (newBookTitle st) (newBookAuthor st)
    (newBookStatus st) v (newBookCoverImageUrl st) (searchResults st)
    (searchQuery st) (loading st) (error st) (message st).

Definition setNewBookCoverImageUrl (v : JsValue) (st : State) : State :=
  mkState (books st) (view st) (newBookTitle st) (newBookAuthor st)
    (newBookStatus st) (newBookNotes st) v (searchResults st)
    (searchQuery st) (loading st) (error st) (message st).

Definition setSearchResults (v : list Found.t) (st : State) : State :=
  mkState (books st) (view st) (newBookTitle st) (newBookAuthor st)
    (newBookStatus st) (newBookNotes st) (newBookCoverImageUrl st) v
    (searchQuery st) (loading st) (error st) (message st).

Definition setSearchQuery (v : string) (st : State) : State :=
  mkState (books st) (view st) (newBookTitle st) (newBookAuthor st)
    (newBookStatus st) (newBookNotes st) (newBookCoverImageUrl st)
    (searchResults st) v (loading st) (error st) (message st).

Definition setLoading (v : bool) (st : State) : State :=
  mkState (books st) (view st) (newBookTitle st) (newBookAuthor st)
    (newBookStatus st) (newBookNotes st) (newBookCoverImageUrl st)
    (searchResults st) (searchQuery st) v (error st) (message st).

Definition setError (v : option string) (st : State) : State :=
  mkState (books st) (view st) (newBookTitle st) (newBookAuthor st)
    (newBookStatus st) (newBookNotes st) (newBookCoverImageUrl st)
    (searchResults st) (searchQuery st) (loading st) v (message st).

Definition setMessage (v : option Message) (st : State) : State :=
  mkState (books st) (view st) (newBookTitle st) (newBookAuthor st)
    (newBookStatus st) (newBookNotes st) (newBookCoverImageUrl st)
    (searchResults st) (searchQuery st) (loading st) (error st) v.

(** [showMessage(msg, isError)]; the timer it starts fires later, as
    [clearMessage]. *)
Definition showMessage (msg : string) (isError : bool) (st : State) : State :=
  setMessage (Some (mkMessage msg isError)) st.

(** [() => setMessage(null)] *)
Definition clearMessage (st : State) : State :=
  setMessage None st.

(** How [await fetch(...)] settles for the client: the promise rejects, or
    it resolves to the response the server sent. *)
Inductive Fetched : Type :=
| Rejected (message : string)
| Responded (response : Response).

(** [response.ok] *)
Definition ok (r : Response) : bool :=
  (200 <=? statusCode r) && (statusCode r <=? 299).

(** [errorData.error || `HTTP error! status: ${response.status}`] *)
Definition error_of (r : Response) : string :=
  let fallback := "HTTP error! status: " ++ number_to_string (statusCode r) in
  match json r with
  | JError e => if String.eqb e "" then fallback else e
  | _ => fallback
  end.

(** What each handler reads out of a parsed body.  [None] is a body of
    another shape, which the handlers are not modelled on. *)
Definition books_of_json (j : Json) : option (list Client.Book) :=
  match j with
  | JRows rows => Some (map book_of_row rows)
  | _ => None
  end.

Definition book_of_json (j : Json) : option Client.Book :=
  match j with
  | JBook id title author status notes coverImageUrl =>
      Some (Client.mkBook id title author status notes coverImageUrl)
  | _ => None
  end.

Definition results_of_json (j : Json) : option (list Found.t) :=
  match j with
  | JFound results => Some results
  | _ => None
  end.

(** The [catch] and [finally] blocks: [setError(text); setLoading(false)]. *)
Definition failed (text : string) (st : State) : State :=
  setLoading false (setError (Some text) st).

(** [setLoading(true); setError(null);] *)
Definition begin (st : State) : State :=
  setError None (setLoading true st).

(** ** [fetchBooks] *)

Definition fetchBooks_start (st : State) : State * Request :=
  (begin st, GetBooks None).

Definition load_failed : string :=
  "Failed to load books. Please ensure the backend server is running.".

Definition fetchBooks_finish (fetched : Fetched) (st : State) : option State :=
  match fetched with
  | Rejected _ => Some (failed load_failed st)
  | Responded response =>
      if negb (ok response) then Some (failed load_failed st)
      else
        match books_of_json (json response) with
        | Some data => Some (setLoading false (setBooks data st))
        | None => None
        end
  end.

(** ** [handleSearchBooks] *)

Section Search.

(** [String.prototype.trim] *)
Variable trim : string -> string.

Definition handleSearchBooks_start (st : State) : State * option Request :=
  if String.eqb (trim (searchQuery st)) "" then
    (setSearchResults [] st, None)
  else
    (begin st, Some (SearchBooks (Some (searchQuery st)))).

End Search.

Definition search_failed (message : string) : string :=
  "Failed to search books: " ++ message
    ++ ". Please check your network or backend configuration.".

Definition handleSearchBooks_finish (fetched : Fetched) (st : State)
  : option State :=
  match fetched with
  | Rejected message => Some (failed (search_failed message) st)
  | Responded response =>
      if negb (ok response) then
        Some (failed (search_failed (error_of response)) st)
      else
        match results_of_json (json response) with
        | Some data => Some (setLoading false (setSearchResults data st))
        | None => None
        end
  end.

(** The [onClick] of "Use This". *)
Definition useThis (result : Found.t) (st : State) : State :=
  setSearchQuery ""
    (setSearchResults []
       (setNewBookCoverImageUrl (Found.coverImageUrl result)
          (setNewBookAuthor (Found.author result)
             (setNewBookTitle (Found.title result) st)))).

(** ** [handleAddBook] *)

Definition bookData (st : State) : Body.t :=
  Body.mk (newBookTitle st) (JsString (newBookAuthor st))
    (JsString (newBookStatus st)) (JsString (newBookNotes st))
    (newBookCoverImageUrl st).

Definition handleAddBook_start (st : State) : State * Request :=
  (begin st, PostBooks (bookData st)).

Definition handleAddBook_finish (captured : State) (fetched : Fetched)
    (st : State) : option State :=
  match fetched with
  | Rejected message => Some (failed ("Failed to add book: " ++ message) st)
  | Responded response =>
      if negb (ok response) then
        Some (failed ("Failed to add book: " ++ error_of response) st)
      else
        match book_of_json (json response) with
        | Some addedBook =>
            Some
              (setLoading false
                 (setView "list"
                    (setSearchQuery ""
                       (setSearchResults []
                          (setNewBookCoverImageUrl (JsString "")
                             (setNewBookNotes ""
                                (setNewBookStatus "Want to Read"
                                   (setNewBookAuthor ""
                                      (setNewBookTitle (JsString "")
                                         (showMessage "Book added successfully!"
                                            false
                                            (setBooks
                                               (books captured ++ [addedBook])
                                               st)))))))))))
        | None => None
        end
  end.

(** ** [handleUpdateBook] *)

Definition handleUpdateBook_start (id : Z) (updates : Updates) (st : State)
  : State * Request :=
  (begin st, PutBooks (number_to_string id) (body_of_updates updates)).

Definition handleUpdateBook_finish (captured : State) (id : Z)
    (updates : Updates) (fetched : Fetched) (st : State) : option State :=
  match fetched with
  | Rejected message => Some (failed ("Failed to update book: " ++ message) st)
  | Responded response =>
      if negb (ok response) then
        Some (failed ("Failed to update book: " ++ error_of response) st)
      else
        Some
          (setLoading false
             (showMessage "Book updated successfully!" false
                (setBooks
                   (map (fun book =>
                           if Z.eqb (Client.id book) id
                           then spread book updates else book)
                      (books captured))
                   st)))
  end.

(** ** [handleDeleteBook] *)

Definition handleDeleteBook_start (id : Z) (st : State) : State * Request :=
  (begin st, DeleteBooks (number_to_string id)).

Definition handleDeleteBook_finish (captured : State) (id : Z)
    (fetched : Fetched) (st : State) : option State :=
  match fetched with
  | Rejected message => Some (failed ("Failed to delete book: " ++ message) st)
  | Responded response =>
      if negb (ok response) then
        Some (failed ("Failed to delete book: " ++ error_of response) st)
      else
        Some
          (setLoading false
             (showMessage "Book deleted successfully!" false
                (setBooks
                   (filter (fun book => negb (Z.eqb (Client.id book) id))
                      (books captured))
                   st)))
  end.

(** ** What the user can do *)

(** The three [<option>] elements of both status selects. *)
Inductive StatusOption : Type :=
| OptWantToRead
| OptReading
| OptFinished.

(** The [value] of an option. *)
Definition option_value (o : StatusOption) : string :=
  match o with
  | OptWantToRead => "Want to Read"
  | OptReading => "Reading"
  | OptFinished => "Finished"
  end.

(** The events of the component:
    - [Mount]: the [useEffect] that calls [fetchBooks];
    - [ClickMyBooks], [ClickAddNewBook]: the two navigation buttons;
    - [ChangeSearchQuery], [ChangeTitle], [ChangeAuthor], [ChangeNotes],
      [ChangeCoverImageUrl]: the [onChange] of the text inputs;
    - [SelectStatus]: the [onChange] of the form's select, whose value is
      that of one of its options;
    - [ClickSearch]: [onClick={handleSearchBooks}];
    - [ClickUseThis]: the "Use This" button of the result at an index;
    - [SubmitForm]: [onSubmit={handleAddBook}]; the browser's own check of
      the [required] inputs is not modelled, the event is possible in every
      state;
    - [SelectCardStatus]: the [onChange] of a card's select,
      [onUpdate(book.id, { status: e.target.value })]; possible for every
      id, also one that has no card;
    - [ClickDelete]: [onDelete(book.id)], likewise;
    - [MessageTimeout]: the timer of [showMessage]. *)
Inductive Event : Type :=
| Mount
| ClickMyBooks
| ClickAddNewBook
| ChangeSearchQuery (value : string)
| ClickSearch
| ClickUseThis (index : nat)
| ChangeTitle (value : string)
| ChangeAuthor (value : string)
| SelectStatus (o : StatusOption)
| ChangeNotes (value : string)
| ChangeCoverImageUrl (value : string)
| SubmitForm
| SelectCardStatus (id : Z) (o : StatusOption)
| ClickDelete (id : Z)
| MessageTimeout.

End App.

(** * Client and server together

    One user action at a time: the handler starts, the request is served,
    and the handler finishes before the next action.  When the network is
    down the request does not reach the server and [fetch] rejects.  A
    request arrives as it was sent: the query string and the JSON body
    decode to what the client encoded, a key whose value is [undefined]
    being left out of the JSON. *)

Section System.

Variable rowid_of_text : string -> option Z.
Variable GOOGLE_BOOKS_API_KEY : option string.
Variable encodeURIComponent : string -> string.
Variable fetch : string -> Fetch.Outcome.
Variable trim : string -> string.

Definition exchange (online : bool) (s : Store) (req : Request)
  : Store * App.Fetched :=
  if online then
    let served :=
      handle rowid_of_text GOOGLE_BOOKS_API_KEY encodeURIComponent fetch s req
    in
    (fst served, App.Responded (snd served))
  else (s, App.Rejected "Failed to fetch").

(** A handler whose closure is of the current render: start, exchange,
    finish. *)
Definition settle (online : bool) (s : Store) (started : App.State * Request)
    (finish : App.Fetched -> App.State -> option App.State)
  : option (Store * App.State) :=
  let reply := exchange online s (snd started) in
  match finish (snd reply) (fst started) with
  | Some st' => Some (fst reply, st')
  | None => None
  end.

Definition step (online : bool) (w : Store * App.State) (ev : App.Event)
  : option (Store * App.State) :=
  let s := fst w in
  let st := snd w in
  match ev with
  | App.Mount =>
      settle online s (App.fetchBooks_start st) App.fetchBooks_finish
  | App.ClickMyBooks => Some (s, App.setView "list" st)
  | App.ClickAddNewBook => Some (s, App.setView "add" st)
  | App.ChangeSearchQuery v => Some (s, App.setSearchQuery v st)
  | App.ClickSearch =>
      match App.handleSearchBooks_start trim st with
      | (st1, None) => Some (s, st1)
      | (st1, Some req) =>
          settle online s (st1, req) App.handleSearchBooks_finish
      end
  | App.ClickUseThis index =>
      match nth_error (App.searchResults st) index with
      | Some result => Some (s, App.useThis result st)
      | None => Some (s, st)
      end
  | App.ChangeTitle v => Some (s, App.setNewBookTitle (JsString v) st)
  | App.ChangeAuthor v => Some (s, App.setNewBookAuthor v st)
  | App.SelectStatus o =>
      Some (s, App.setNewBookStatus (App.option_value o) st)
  | App.ChangeNotes v => Some (s, App.setNewBookNotes v st)
  | App.ChangeCoverImageUrl v =>
      Some (s, App.setNewBookCoverImageUrl (JsString v) st)
  | App.SubmitForm =>
      settle online s (App.handleAddBook_start st)
        (App.handleAddBook_finish st)
  | App.SelectCardStatus id o =>
      settle online s
        (App.handleUpdateBook_start id
           (App.status_update (App.option_value o)) st)
        (App.handleUpdateBook_finish st id
           (App.status_update (App.option_value o)))
  | App.ClickDelete id =>
      settle online s (App.handleDeleteBook_start id st)
        (App.handleDeleteBook_finish st id)
  | App.MessageTimeout => Some (s, App.clearMessage st)
  end.

(** A session: each action with the state of the network at that time. *)
Fixpoint session (w : Store * App.State) (evs : list (bool * App.Event))
  : option (Store * App.State) :=
  match evs with
  | [] => Some w
  | (online, ev) :: rest =>
      match step online w ev with
      | Some w' => session w' rest
      | None => None
      end
  end.

End System.


(** * Vocabulary of the specification *)

(** The status enumeration of the data model. *)
Definition status_enumeration : list string :=
  ["Want to Read"; "Reading"; "Finished"].

(** A request field that is missing ([undefined] or [null]) or empty. *)
Definition missing_or_empty (v : JsValue) : Prop :=
  v = JsUndefined \/ v = JsNull \/ v = JsString "".

(** The invariant of the data model, for one row: a non-empty title and a
    status of the enumeration. *)
Definition data_model_invariant (r : Book.Row) : Prop :=
  (exists t, Book.title r = Some t /\ t <> "") /\
  (exists st, Book.status r = Some st /\ In st status_enumeration).


(** What the table itself guarantees for a row: the two NOT NULL columns
    hold a text. *)
Definition not_null_columns (r : Book.Row) : Prop :=
  Book.title r <> None /\ Book.status r <> None.

(** The field of an update payload that belongs to a column. *)
Definition payload_field (c : Column) (body : Body.t) : JsValue :=
  match c with
  | ColTitle => Body.title body
  | ColAuthor => Body.author body
  | ColStatus => Body.status body
  | ColNotes => Body.notes body
  | ColCoverImageUrl => Body.coverImageUrl body
  end.

(** A payload without any recognized Book field. *)
Definition no_recognized_fields (body : Body.t) : Prop :=
  forall c, payload_field c body = JsUndefined.

(** No row of the table answers to the route id. *)
Definition no_row_matches (rowid_of_text : string -> option Z) (id : string)
    (s : Store) : Prop :=
  forall r, In r (books s) -> id_matches rowid_of_text id r = false.

(** Well-formed store: rowids are positive, bounded by the largest rowid
    ever assigned, and increase along the table; NOT NULL columns hold a
    text. *)
Record store_wf (s : Store) : Prop := mk_store_wf {
  wf_counter : 0 <= sqlite_sequence s;
  wf_bounds : Forall (fun r => 0 < Book.id r <= sqlite_sequence s) (books s);
  wf_sorted : StronglySorted Z.lt (map Book.id (books s));
  wf_not_null : Forall not_null_columns (books s)
}.

(** The items of a volume list; a list without [items] has none. *)
Definition items_of (data : Volume.Data) : list Volume.Item :=
  match Volume.items data with
  | Some items => items
  | None => []
  end.




(** A parsed field that is missing ([undefined] or [null]) or empty. *)
Definition wire_missing_or_empty (v : Wire.Value) : Prop :=
  v = Wire.Absent \/ v = Wire.Null \/ v = Wire.Text "".

(** A parsed field that is falsy: missing, empty, [false] or zero. *)
Definition wire_falsy (v : Wire.Value) : Prop :=
  wire_missing_or_empty v \/ v = Wire.Bool false \/
  exists n, v = Wire.Number n /\ QArith_base.Qeq n (QArith_base.Qmake 0 1).


(** A client book and a row that stand for the same Book: the same id,
    and in every field the value the row's cell would be bound from. *)
Definition mirrors (b : Client.Book) (r : Book.Row) : Prop :=
  Client.id b = Book.id r /\
  forall c, bind (client_field c b) = get_col c r.

(** The client's list stands, element by element, for the table. *)
Definition mirror (bs : list Client.Book) (s : Store) : Prop :=
  Forall2 mirrors bs (books s).

(** [categorizedBooks[status]] for the value of an option. *)
Definition bucket (o : App.StatusOption) (c : Client.Categorized)
  : list Client.Book :=
  match o with
  | App.OptWantToRead => Client.Want_to_Read c
  | App.OptReading => Client.Reading c
  | App.OptFinished => Client.Finished c
  end.

(** A fetch that rejected, or resolved to a response that is not ok. *)
Definition unsuccessful (fetched : App.Fetched) : Prop :=
  match fetched with
  | App.Rejected _ => True
  | App.Responded response => App.ok response = false
  end.

(** Two states that differ at most in [loading], [error] and [message]. *)
Definition same_data (a b : App.State) : Prop :=
  App.books a = App.books b /\ App.view a = App.view b /\
  App.newBookTitle a = App.newBookTitle b /\
  App.newBookAuthor a = App.newBookAuthor b /\
  App.newBookStatus a = App.newBookStatus b /\
  App.newBookNotes a = App.newBookNotes b /\
  App.newBookCoverImageUrl a = App.newBookCoverImageUrl b /\
  App.searchResults a = App.searchResults b /\
  App.searchQuery a = App.searchQuery b.


(** What a handler leaves behind when its request did not succeed: the
    data as it was, the loading flag down, an error text up, the message
    untouched. *)
Definition reports_failure (st' st : App.State) : Prop :=
  same_data st' st /\ App.loading st' = false /\ App.error st' <> None /\
  App.message st' = App.message st.


(** * Concrete data for the examples *)

Definition digit_of_ascii (c : ascii) : option Z :=
  let n := Z.of_nat (nat_of_ascii c) in
  if (48 <=? n) && (n <=? 57) then Some (n - 48) else None.

Fixpoint decimal_value (acc : Z) (s : string) : option Z :=
  match s with
  | EmptyString => Some acc
  | String c rest =>
      match digit_of_ascii c with
      | Some d => decimal_value (10 * acc + d) rest
      | None => None
      end
  end.

(** An instance of [rowid_of_text]: plain decimal numerals. *)
Definition decimal_rowid (s : string) : option Z :=
  match s with
  | EmptyString => None
  | _ => decimal_value 0 s
  end.

Definition no_fields : Body.t :=
  Body.mk JsUndefined JsUndefined JsUndefined JsUndefined JsUndefined.

Definition dune : Body.t :=
  Body.mk (JsString "Dune") (JsString "Frank Herbert")
    (JsString "Want to Read") JsUndefined JsUndefined.


Definition emma_reading : Body.t :=
  Body.mk (JsString "Emma") JsNull (JsString "Reading") JsUndefined JsUndefined.

Definition only_status (st : string) : Body.t :=
  Body.mk JsUndefined JsUndefined (JsString st) JsUndefined JsUndefined.

Definition only_title (t : string) : Body.t :=
  Body.mk (JsString t) JsUndefined JsUndefined JsUndefined JsUndefined.

(** The store after [POST /books] of [dune] and then of [emma_reading]. *)
Definition two_books : Store :=
  fst (post_books (fst (post_books empty_store dune)) emma_reading).

(** An instance of [driver_text]: booleans as [1] and [0], whole numbers
    in decimal, anything else by a fixed text. *)
Definition sample_driver_text (v : Wire.Value) : string :=
  match v with
  | Wire.Bool true => "1"
  | Wire.Bool false => "0"
  | Wire.Number n =>
      match QArith_base.Qden n with
      | xH => number_to_string (QArith_base.Qnum n)
      | _ => "0.5"
      end
  | _ => "[object Object]"
  end.

(** [{ "title": 0, "status": "Reading" }] *)
Definition zero_title : Wire.Body :=
  Wire.mkBody (Wire.Number (QArith_base.Qmake 0 1)) Wire.Absent
    (Wire.Text "Reading") Wire.Absent Wire.Absent.

(** [{ "title": 1984, "author": "George Orwell", "status": "Reading" }] *)
Definition numeric_title : Wire.Body :=
  Wire.mkBody (Wire.Number (QArith_base.Qmake 1984 1))
    (Wire.Text "George Orwell") (Wire.Text "Reading") Wire.Absent Wire.Absent.




(** An instance of [rowid_of_text]: decimal numerals with an optional
    minus sign. *)
Definition numeral_rowid (s : string) : option Z :=
  option_map Z.of_int (NilZero.int_of_string s).

Definition is_space (c : ascii) : bool :=
  let n := nat_of_ascii c in
  (Nat.eqb n 32 || (Nat.leb 9 n && Nat.leb n 13))%bool.

Fixpoint trim_start (s : string) : string :=
  match s with
  | EmptyString => EmptyString
  | String c rest => if is_space c then trim_start rest else s
  end.

Fixpoint trim_end (s : string) : string :=
  match s with
  | EmptyString => EmptyString
  | String c rest =>
      match trim_end rest with
      | EmptyString => if is_space c then EmptyString else String c EmptyString
      | kept => String c kept
      end
  end.

(** An instance of [trim]: ASCII white space off both ends. *)
Definition trim_ascii (s : string) : string :=
  trim_end (trim_start s).

(** The client after it has loaded [two_books]. *)
Definition loaded : App.State :=
  App.setBooks (map book_of_row (books two_books)) App.initial.

(** The add form filled in by hand. *)
Definition form_filled : App.State :=
  App.setNewBookStatus "Reading"
    (App.setNewBookTitle (JsString "Ulysses") loaded).


Definition no_key : option string := None.
Definition some_key : option string := Some "k3y".
Definition plain_uri (s : string) : string := s.

Definition volume (t : string) : Volume.Item :=
  Volume.mkItem
    (Volume.mkVolumeInfo (JsString t) (Some ["A. One"; "B. Two"])
       (Some (Volume.mkImageLinks JsUndefined (JsString "http://img/s")))
       JsUndefined).

Definition untitled_volume : Volume.Item :=
  Volume.mkItem (Volume.mkVolumeInfo (JsString "") None None JsUndefined).


Definition two_volumes : Volume.Data :=
  Volume.mkData (Some [volume "a"; untitled_volume]).

Definition upstream_ok (data : Volume.Data) (url : string) : Fetch.Outcome :=
  Fetch.Resolves (Fetch.mkResponse 200 "OK" (Some data)).

Definition upstream_forbidden (url : string) : Fetch.Outcome :=
  Fetch.Resolves (Fetch.mkResponse 403 "Forbidden" None).

Definition upstream_down (url : string) : Fetch.Outcome :=
  Fetch.Throws "connect ECONNREFUSED".

Definition shelf : list Client.Book :=
  [Client.mkBook 1 (JsString "Dune") JsNull (JsString "Reading") JsNull JsNull;
   Client.mkBook 2 (JsString "Emma") JsNull (JsString "Finished") JsNull JsNull;
   Client.mkBook 3 (JsString "Ulysses") JsNull (JsString "Want to Read") JsNull
     JsNull;
   Client.mkBook 4 (JsString "Persuasion") JsNull (JsString "Reading") JsNull
     JsNull].

Example two_books_rows :
  books two_books =
    [Book.mkRow 1 (Some "Dune") (Some "Frank Herbert") (Some "Want to Read")
       None None;
     Book.mkRow 2 (Some "Emma") None (Some "Reading") None None]
  /\ sqlite_sequence two_books = 2.
Proof. split; reflexivity. Qed.

Example put_status_example :
  put_books decimal_rowid two_books "1" (only_status "Reading") =
    (mkStore
       [Book.mkRow 1 (Some "Dune") (Some "Frank Herbert") (Some "Reading")
          None None;
        Book.mkRow 2 (Some "Emma") None (Some "Reading") None None] 2,
     mkResponse 200 (JMessageId "Book updated successfully." "1")).
Proof. reflexivity. Qed.

Example put_null_title_example :
  put_books decimal_rowid two_books "2"
    (Body.mk JsNull JsUndefined JsUndefined JsUndefined JsUndefined) =
    (two_books,
     mkResponse 500
       (JError "SQLITE_CONSTRAINT: NOT NULL constraint failed: books.title")).
Proof. reflexivity. Qed.

Example delete_example :
  delete_books decimal_rowid two_books "1" =
    (mkStore [Book.mkRow 2 (Some "Emma") None (Some "Reading") None None] 2,
     mkResponse 200 (JMessageId "Book deleted successfully." "1")).
Proof. reflexivity. Qed.

Example search_example :
  search_books some_key plain_uri (upstream_ok two_volumes) (Some "dune") =
    mkResponse 200
      (JFound
         [Found.mk (JsString "a") "A. One, B. Two" (JsString "http://img/s")
            (JsString "No description available.");
          Found.mk (JsString "N/A") "N/A" JsNull
            (JsString "No description available.")]).
Proof. reflexivity. Qed.

(** * Properties of the statements *)

Lemma truthy_false_iff (v : JsValue) :
  truthy v = false <-> missing_or_empty v.
Proof.
  unfold missing_or_empty. destruct v as [| |s]; simpl.
  - intuition.
  - intuition.
  - rewrite negb_false_iff, String.eqb_eq. split.
    + intros ->. auto.
    + intros [H|[H|H]]; congruence.
Qed.

Lemma truthy_true_string (v : JsValue) :
  truthy v = true -> exists t, v = JsString t /\ t <> "".
Proof.
  destruct v as [| |s]; simpl; try discriminate.
  rewrite negb_true_iff, String.eqb_neq. eauto.
Qed.

Lemma set_col_id (c : Column) (v : Cell) (r : Book.Row) :
  Book.id (set_col c v r) = Book.id r.
Proof. destruct c; reflexivity. Qed.

Lemma assign_id (sets : list (Column * JsValue)) (r : Book.Row) :
  Book.id (assign sets r) = Book.id r.
Proof.
  unfold assign. revert r.
  induction sets as [|cv sets IH]; intros r; simpl.
  - reflexivity.
  - rewrite IH. apply set_col_id.
Qed.

(** The SET clause built from a payload writes the bound value of every
    supplied field and keeps every other cell. *)
Lemma assign_updates_of (body : Body.t) (r : Book.Row) (c : Column) :
  get_col c (assign (updates_of body) r) =
    if defined (payload_field c body) then bind (payload_field c body)
    else get_col c r.
Proof.
  destruct body as [t a st n cv], r as [i rt ra rs rn rc].
  destruct c; destruct t, a, st, n, cv; reflexivity.
Qed.

Lemma updates_of_nil_iff (body : Body.t) :
  updates_of body = [] <-> no_recognized_fields body.
Proof.
  unfold no_recognized_fields. split.
  - intros H c. destruct body as [t a st n cv].
    destruct c; destruct t, a, st, n, cv; simpl in *;
      try reflexivity; discriminate.
  - intros H. destruct body as [t a st n cv].
    pose proof (H ColTitle) as Ht. pose proof (H ColAuthor) as Ha.
    pose proof (H ColStatus) as Hs. pose proof (H ColNotes) as Hn.
    pose proof (H ColCoverImageUrl) as Hc. simpl in *. subst. reflexivity.
Qed.

Lemma strongly_sorted_snoc (l : list Z) (x : Z) :
  StronglySorted Z.lt l -> Forall (fun y => y < x) l ->
  StronglySorted Z.lt (l ++ [x]).
Proof.
  induction 1 as [|a l Hl IH Ha]; intros Hx; simpl.
  - repeat constructor.
  - inversion Hx as [|? ? Hax Hlx]; subst. constructor.
    + apply IH. exact Hlx.
    + apply Forall_app. split; [exact Ha | constructor; [exact Hax | constructor]].
Qed.

Lemma strongly_sorted_filter_ids (p : Book.Row -> bool) (l : list Book.Row) :
  StronglySorted Z.lt (map Book.id l) ->
  StronglySorted Z.lt (map Book.id (filter p l)).
Proof.
  induction l as [|r l IH]; simpl; intros H.
  - constructor.
  - inversion H as [|? ? Hl Hr]; subst. destruct (p r); simpl.
    + constructor; [apply IH; exact Hl|].
      rewrite Forall_forall in *. intros y Hy. apply Hr.
      rewrite in_map_iff in *. destruct Hy as [x [Hx Hin]].
      exists x. split; [exact Hx|]. apply filter_In in Hin. tauto.
    + apply IH. exact Hl.
Qed.

Section Statements.

Variable rowid_of_text : string -> option Z.

Lemma map_update_ids (sets : list (Column * JsValue)) (idp : string)
    (l : list Book.Row) :
  map Book.id
    (map (fun r => if id_matches rowid_of_text idp r then assign sets r
                   else r) l)
  = map Book.id l.
Proof.
  rewrite map_map. apply map_ext. intros r.
  destruct (id_matches rowid_of_text idp r); [apply assign_id | reflexivity].
Qed.

Lemma first_violation_none (sets : list (Column * JsValue)) (idp : string)
    (l : list Book.Row) :
  first_violation rowid_of_text sets idp l = None ->
  forall r, In r l -> id_matches rowid_of_text idp r = true ->
            not_null_violation (assign sets r) = None.
Proof.
  induction l as [|x l IH]; simpl; intros H r Hin Hm.
  - contradiction.
  - destruct Hin as [->|Hin].
    + rewrite Hm in H.
      destruct (not_null_violation (assign sets r)); [discriminate|reflexivity].
    + apply IH; try assumption.
      destruct (id_matches rowid_of_text idp x); [|exact H].
      destruct (not_null_violation (assign sets x)); [discriminate|exact H].
Qed.

Lemma first_violation_no_match (sets : list (Column * JsValue))
    (idp : string) (l : list Book.Row) :
  (forall r, In r l -> id_matches rowid_of_text idp r = false) ->
  first_violation rowid_of_text sets idp l = None.
Proof.
  induction l as [|x l IH]; simpl; intros H.
  - reflexivity.
  - rewrite (H x (or_introl eq_refl)). apply IH.
    intros r Hr. apply H. right. exact Hr.
Qed.

Lemma filter_no_match (idp : string) (l : list Book.Row) :
  (forall r, In r l -> id_matches rowid_of_text idp r = false) ->
  filter (fun r => id_matches rowid_of_text idp r) l = [].
Proof.
  induction l as [|x l IH]; simpl; intros H.
  - reflexivity.
  - rewrite (H x (or_introl eq_refl)). apply IH.
    intros r Hr. apply H. right. exact Hr.
Qed.

Lemma filter_match_nil (idp : string) (l : list Book.Row) :
  filter (fun r => id_matches rowid_of_text idp r) l = [] ->
  forall r, In r l -> id_matches rowid_of_text idp r = false.
Proof.
  intros H r Hin.
  destruct (id_matches rowid_of_text idp r) eqn:E; [|reflexivity].
  assert (Hf : In r (filter (fun r => id_matches rowid_of_text idp r) l))
    by (apply filter_In; split; assumption).
  rewrite H in Hf. contradiction.
Qed.

Lemma map_no_match (sets : list (Column * JsValue)) (idp : string)
    (l : list Book.Row) :
  (forall r, In r l -> id_matches rowid_of_text idp r = false) ->
  map (fun r => if id_matches rowid_of_text idp r then assign sets r else r) l
  = l.
Proof.
  induction l as [|x l IH]; simpl; intros H.
  - reflexivity.
  - rewrite (H x (or_introl eq_refl)). f_equal. apply IH.
    intros r Hr. apply H. right. exact Hr.
Qed.

Lemma filter_keep_no_match (idp : string) (l : list Book.Row) :
  (forall r, In r l -> id_matches rowid_of_text idp r = false) ->
  filter (fun r => negb (id_matches rowid_of_text idp r)) l = l.
Proof.
  induction l as [|x l IH]; simpl; intros H.
  - reflexivity.
  - rewrite (H x (or_introl eq_refl)). simpl. f_equal. apply IH.
    intros r Hr. apply H. right. exact Hr.
Qed.

(** With increasing rowids, at most one row answers to a route id: the
    table splits around it. *)
Lemma sorted_split_match (idp : string) (l : list Book.Row) (r : Book.Row) :
  StronglySorted Z.lt (map Book.id l) ->
  In r l -> id_matches rowid_of_text idp r = true ->
  exists l1 l2,
    l = (l1 ++ r :: l2)%list /\
    (forall x, In x l1 -> id_matches rowid_of_text idp x = false) /\
    (forall x, In x l2 -> id_matches rowid_of_text idp x = false).
Proof.
  unfold id_matches. destruct (rowid_of_text idp) as [n|]; [|discriminate].
  induction l as [|x l IH]; simpl; intros Hs Hin Hm.
  - contradiction.
  - inversion Hs as [|? ? Hl Hx]; subst.
    rewrite Forall_forall in Hx.
    apply Z.eqb_eq in Hm.
    destruct Hin as [->|Hin].
    + exists [], l. split; [reflexivity|]. split; [intros ? []|].
      intros y Hy. apply Z.eqb_neq.
      specialize (Hx (Book.id y) (in_map Book.id l y Hy)). lia.
    + destruct (IH Hl Hin) as [l1 [l2 [E [H1 H2]]]].
      { apply Z.eqb_eq. exact Hm. }
      exists (x :: l1), l2. split; [simpl; rewrite E; reflexivity|].
      split; [|exact H2].
      intros y [<-|Hy]; [|apply H1; exact Hy].
      apply Z.eqb_neq.
      specialize (Hx (Book.id r) (in_map Book.id l r Hin)). lia.
Qed.

End Statements.

(** * Properties of the handlers *)

Section ServerProperties.

Variable rowid_of_text : string -> option Z.
Variable GOOGLE_BOOKS_API_KEY : option string.
Variable encodeURIComponent : string -> string.
Variable fetch : string -> Fetch.Outcome.

Local Abbreviation matches := (id_matches rowid_of_text).
Local Abbreviation put := (put_books rowid_of_text).
Local Abbreviation delete := (delete_books rowid_of_text).
Local Abbreviation unmatched := (no_row_matches rowid_of_text).
Local Abbreviation serve :=
  (handle rowid_of_text GOOGLE_BOOKS_API_KEY encodeURIComponent fetch).
Local Abbreviation reach :=
  (reachable rowid_of_text GOOGLE_BOOKS_API_KEY encodeURIComponent fetch).

(** ** Create *)

Lemma post_books_rejected (s : Store) (body : Body.t) :
  missing_or_empty (Body.title body) \/ missing_or_empty (Body.status body) ->
  post_books s body =
    (s, mkResponse 400 (JError "Title and Status are required.")).
Proof.
  intros H. unfold post_books.
  destruct H as [H|H]; apply truthy_false_iff in H; rewrite H; simpl.
  - reflexivity.
  - rewrite orb_true_r. reflexivity.
Qed.

Lemma post_books_accepted (s : Store) (body : Body.t) :
  truthy (Body.title body) = true -> truthy (Body.status body) = true ->
  post_books s body =
    (mkStore
       (books s ++
          [Book.mkRow (sqlite_sequence s + 1) (bind (Body.title body))
             (bind (Body.author body)) (bind (Body.status body))
             (bind (Body.notes body)) (bind (Body.coverImageUrl body))])
       (sqlite_sequence s + 1),
     mkResponse 201
       (JBook (sqlite_sequence s + 1) (Body.title body) (Body.author body)
          (Body.status body) (Body.notes body) (Body.coverImageUrl body))).
Proof.
  intros Ht Hs. unfold post_books. rewrite Ht, Hs. simpl.
  destruct (truthy_true_string _ Ht) as [t [Et _]].
  destruct (truthy_true_string _ Hs) as [st [Es _]].
  unfold db_run_insert, not_null_violation. simpl.
  rewrite Et, Es. simpl. reflexivity.
Qed.

Lemma post_books_cases (body : Body.t) :
  (missing_or_empty (Body.title body) \/ missing_or_empty (Body.status body))
  \/ (truthy (Body.title body) = true /\ truthy (Body.status body) = true).
Proof.
  destruct (truthy (Body.title body)) eqn:Et.
  - destruct (truthy (Body.status body)) eqn:Es.
    + right. split; reflexivity.
    + left. right. apply truthy_false_iff. exact Es.
  - left. left. apply truthy_false_iff. exact Et.
Qed.

Lemma post_books_wf (s : Store) (body : Body.t) :
  store_wf s -> store_wf (fst (post_books s body)).
Proof.
  intros [Hc Hb Hs Hn].
  destruct (post_books_cases body) as [H|[Ht Hst]].
  - rewrite (post_books_rejected s body H). simpl. constructor; assumption.
  - rewrite (post_books_accepted s body Ht Hst). simpl.
    destruct (truthy_true_string _ Ht) as [t [Et _]].
    destruct (truthy_true_string _ Hst) as [st [Es _]].
    constructor; simpl.
    + lia.
    + apply Forall_app. split.
      * eapply Forall_impl; [|exact Hb]. simpl. intros r Hr. lia.
      * constructor; [|constructor]. simpl. lia.
    + rewrite map_app. simpl. apply strongly_sorted_snoc; [exact Hs|].
      rewrite Forall_forall in *. intros y Hy.
      apply in_map_iff in Hy. destruct Hy as [r [<- Hr]].
      specialize (Hb r Hr). simpl in Hb. lia.
    + apply Forall_app. split; [exact Hn|].
      constructor; [|constructor]. unfold not_null_columns. simpl.
      rewrite Et, Es. simpl. split; discriminate.
Qed.

(** ** Update *)

Lemma put_books_empty (s : Store) (id : string) (body : Body.t) :
  no_recognized_fields body ->
  put s id body =
    (s, mkResponse 400 (JError "No fields provided for update.")).
Proof.
  intros H. apply updates_of_nil_iff in H.
  unfold put_books. rewrite H. reflexivity.
Qed.

Lemma updates_of_length (body : Body.t) :
  ~ no_recognized_fields body ->
  Nat.eqb (List.length (updates_of body)) 0 = false.
Proof.
  intros H. destruct (updates_of body) as [|u l] eqn:E.
  - exfalso. apply H. apply updates_of_nil_iff. exact E.
  - reflexivity.
Qed.

Lemma put_books_not_found (s : Store) (id : string) (body : Body.t) :
  ~ no_recognized_fields body -> unmatched id s ->
  put s id body = (s, mkResponse 404 (JMessage "Book not found.")).
Proof.
  intros Hb Hm. unfold put_books, db_run_update.
  rewrite (updates_of_length body Hb).
  rewrite (first_violation_no_match rowid_of_text _ _ _ Hm).
  rewrite (filter_no_match rowid_of_text _ _ Hm).
  rewrite (map_no_match rowid_of_text _ _ _ Hm). simpl.
  destruct s; reflexivity.
Qed.

(** The three ways [PUT /books/:id] can end once the payload names a
    field and a row answers to the id. *)
Lemma put_books_outcome (s : Store) (id : string) (body : Body.t) :
  put s id body =
    if Nat.eqb (List.length (updates_of body)) 0 then
      (s, mkResponse 400 (JError "No fields provided for update."))
    else
      match first_violation rowid_of_text (updates_of body) id (books s) with
      | Some c => (s, mkResponse 500 (JError (constraint_message c)))
      | None =>
          match filter (fun r => matches id r) (books s) with
          | [] => (s, mkResponse 404 (JMessage "Book not found."))
          | _ :: _ =>
              (mkStore
                 (map (fun r => if matches id r
                                then assign (updates_of body) r else r)
                    (books s))
                 (sqlite_sequence s),
               mkResponse 200 (JMessageId "Book updated successfully." id))
          end
      end.
Proof.
  unfold put_books, db_run_update.
  destruct (Nat.eqb (List.length (updates_of body)) 0); [reflexivity|].
  destruct (first_violation rowid_of_text (updates_of body) id (books s))
    eqn:Ev; [reflexivity|].
  destruct (filter (fun r => matches id r) (books s)) eqn:Ef; simpl.
  - rewrite (map_no_match rowid_of_text _ _ _
               (filter_match_nil rowid_of_text _ _ Ef)).
    destruct s; reflexivity.
  - reflexivity.
Qed.

Lemma put_books_wf (s : Store) (id : string) (body : Body.t) :
  store_wf s -> store_wf (fst (put s id body)).
Proof.
  intros Hwf. rewrite put_books_outcome.
  destruct (Nat.eqb (List.length (updates_of body)) 0); [exact Hwf|].
  destruct (first_violation rowid_of_text (updates_of body) id (books s))
    eqn:Ev; [exact Hwf|].
  destruct (filter (fun r => matches id r) (books s)) as [|hit hits] eqn:Ef;
    [exact Hwf|].
  destruct Hwf as [Hc Hb Hs Hn]. simpl. constructor; simpl.
  - exact Hc.
  - rewrite Forall_forall in *. intros r' Hr'.
    apply in_map_iff in Hr'. destruct Hr' as [r [<- Hr]].
    destruct (matches id r); [rewrite assign_id|]; apply Hb; exact Hr.
  - rewrite map_update_ids. exact Hs.
  - rewrite Forall_forall in *. intros r' Hr'.
    apply in_map_iff in Hr'. destruct Hr' as [r [<- Hr]].
    destruct (matches id r) eqn:Em; [|apply Hn; exact Hr].
    pose proof (first_violation_none rowid_of_text _ _ _ Ev r Hr Em) as Hv.
    unfold not_null_violation in Hv. unfold not_null_columns.
    destruct (Book.title (assign (updates_of body) r));
      destruct (Book.status (assign (updates_of body) r));
      try discriminate. split; discriminate.
Qed.

(** ** Delete *)

Lemma delete_books_outcome (s : Store) (id : string) :
  delete s id =
    match filter (fun r => matches id r) (books s) with
    | [] => (s, mkResponse 404 (JMessage "Book not found."))
    | _ :: _ =>
        (mkStore (filter (fun r => negb (matches id r)) (books s))
           (sqlite_sequence s),
         mkResponse 200 (JMessageId "Book deleted successfully." id))
    end.
Proof.
  unfold delete_books, db_run_delete.
  destruct (filter (fun r => matches id r) (books s)) eqn:Ef; simpl.
  - rewrite (filter_keep_no_match rowid_of_text _ _
               (filter_match_nil rowid_of_text _ _ Ef)).
    destruct s; reflexivity.
  - reflexivity.
Qed.

Lemma delete_books_wf (s : Store) (id : string) :
  store_wf s -> store_wf (fst (delete s id)).
Proof.
  intros Hwf. rewrite delete_books_outcome.
  destruct (filter (fun r => matches id r) (books s)) as [|hit hits];
    [exact Hwf|].
  destruct Hwf as [Hc Hb Hs Hn]. constructor; simpl.
  - exact Hc.
  - rewrite Forall_forall in *. intros r Hr.
    apply filter_In in Hr. apply Hb. tauto.
  - apply strongly_sorted_filter_ids. exact Hs.
  - rewrite Forall_forall in *. intros r Hr.
    apply filter_In in Hr. apply Hn. tauto.
Qed.

(** ** Reachable stores *)

Lemma empty_store_wf : store_wf empty_store.
Proof.
  constructor; simpl; try constructor. lia.
Qed.

Lemma handle_wf (s : Store) (req : Request) :
  store_wf s -> store_wf (fst (serve s req)).
Proof.
  intros Hwf. destruct req; simpl.
  - exact Hwf.
  - apply post_books_wf. exact Hwf.
  - apply put_books_wf. exact Hwf.
  - apply delete_books_wf. exact Hwf.
  - exact Hwf.
Qed.

Lemma reachable_wf (s : Store) : reach s -> store_wf s.
Proof.
  induction 1 as [|s req _ IH].
  - apply empty_store_wf.
  - apply handle_wf. exact IH.
Qed.


(** ** The claims about the store *)


(** Create on a body whose fields are absent, [null] or strings: 400 and
    the store as it was exactly when title or status is missing or empty;
    otherwise exactly one row more, 201 with the Book given and the
    assigned id, and a List that follows returns that row, and no other,
    under that id.  [create_contract_json] below is the same on every JSON
    body. *)
Theorem create_contract (s : Store) (body : Body.t) :
  reach s ->
  let rejected :=
    missing_or_empty (Body.title body) \/
    missing_or_empty (Body.status body) in
  let s' := fst (post_books s body) in
  let resp := snd (post_books s body) in
  (statusCode resp = 400 <-> rejected) /\
  (rejected -> s' = s) /\
  (~ rejected ->
   exists newid r,
     r = Book.mkRow newid (bind (Body.title body)) (bind (Body.author body))
           (bind (Body.status body)) (bind (Body.notes body))
           (bind (Body.coverImageUrl body)) /\
     books s' = (books s ++ [r])%list /\
     resp = mkResponse 201
              (JBook newid (Body.title body) (Body.author body)
                 (Body.status body) (Body.notes body)
                 (Body.coverImageUrl body)) /\
     exists rows,
       snd (get_books s' None) = mkResponse 200 (JRows rows) /\
       filter (fun x => Z.eqb (Book.id x) newid) rows = [r]).
Proof.
  intros Hr rejected s' resp. subst rejected s' resp.
  pose proof (reachable_wf s Hr) as Hwf.
  destruct (post_books_cases body) as [H|[Ht Hst]].
  - rewrite (post_books_rejected s body H). simpl.
    split; [tauto|]. split; [reflexivity|]. intros N. contradiction.
  - assert (N : ~ (missing_or_empty (Body.title body) \/
                   missing_or_empty (Body.status body))).
    { intros [H|H]; apply truthy_false_iff in H; congruence. }
    rewrite (post_books_accepted s body Ht Hst). simpl.
    split; [split; [discriminate | contradiction]|].
    split; [contradiction|]. intros _.
    eexists; eexists. split; [reflexivity|]. split; [reflexivity|].
    split; [reflexivity|].
    eexists. split; [reflexivity|].
    rewrite filter_app. simpl. rewrite Z.eqb_refl.
    replace (filter (fun x => Book.id x =? sqlite_sequence s + 1) (books s))
      with (@nil Book.Row); [reflexivity|].
    symmetry. pose proof (wf_bounds s Hwf) as Hb.
    induction (books s) as [|x l IH]; [reflexivity|].
    inversion Hb as [|? ? Hx Hl]; subst. simpl.
    replace (Book.id x =? sqlite_sequence s + 1) with false
      by (symmetry; apply Z.eqb_neq; lia).
    apply IH. exact Hl.
Qed.

(** C3.  When Update succeeds, the table keeps its length and order; in
    every row that answers to the id each field the payload supplies
    holds the supplied value and each field it does not supply holds
    what it held before; every other row, and the id of every row, is
    as it was. *)
Theorem update_frame (s : Store) (id : string) (body : Body.t) :
  statusCode (snd (put s id body)) = 200 ->
  let s' := fst (put s id body) in
  (exists r, In r (books s) /\ matches id r = true) /\
  List.length (books s') = List.length (books s) /\
  forall i r,
    nth_error (books s) i = Some r ->
    exists r',
      nth_error (books s') i = Some r' /\
      Book.id r' = Book.id r /\
      (matches id r = false -> r' = r) /\
      (matches id r = true ->
       forall c,
         get_col c r' =
           match payload_field c body with
           | JsUndefined => get_col c r
           | supplied => bind supplied
           end).
Proof.
  rewrite put_books_outcome.
  destruct (Nat.eqb (List.length (updates_of body)) 0); [discriminate|].
  destruct (first_violation rowid_of_text (updates_of body) id (books s));
    [discriminate|].
  destruct (filter (fun r => matches id r) (books s)) as [|hit hits] eqn:Ef;
    [discriminate|].
  intros _. simpl. split.
  - exists hit.
    assert (Hin : In hit (filter (fun r => matches id r) (books s)))
      by (rewrite Ef; left; reflexivity).
    apply filter_In in Hin. exact Hin.
  - split; [apply length_map|].
    intros i r Hi. rewrite nth_error_map, Hi. simpl.
    destruct (matches id r) eqn:Em.
    + eexists. split; [reflexivity|]. split; [apply assign_id|].
      split; [discriminate|]. intros _ c.
      rewrite assign_updates_of.
      destruct (payload_field c body); reflexivity.
    + exists r. split; [reflexivity|]. split; [reflexivity|].
      split; [reflexivity | discriminate].
Qed.

(** C4 (amended).  Update answers 400 when the payload has no recognized
    Book field, whether or not a row answers to the id; it answers 404
    when the payload has such a field and no row answers to the id; and
    whenever it answers 400 or 404 the store is as it was. *)
Theorem update_errors (s : Store) (id : string) (body : Body.t) :
  (no_recognized_fields body -> statusCode (snd (put s id body)) = 400) /\
  (~ no_recognized_fields body -> unmatched id s ->
   statusCode (snd (put s id body)) = 404) /\
  (statusCode (snd (put s id body)) = 400 \/
   statusCode (snd (put s id body)) = 404 ->
   fst (put s id body) = s).
Proof.
  split; [|split].
  - intros H. rewrite (put_books_empty s id body H). reflexivity.
  - intros Hb Hm. rewrite (put_books_not_found s id body Hb Hm). reflexivity.
  - rewrite put_books_outcome.
    destruct (Nat.eqb (List.length (updates_of body)) 0); [reflexivity|].
    destruct (first_violation rowid_of_text (updates_of body) id (books s));
      [reflexivity|].
    destruct (filter (fun r => matches id r) (books s)); [reflexivity|].
    simpl. intros [H|H]; discriminate.
Qed.


Lemma put_books_succeeds (s : Store) (id : string) (body : Body.t)
    (r : Book.Row) :
  store_wf s -> In r (books s) -> matches id r = true ->
  ~ no_recognized_fields body ->
  Body.title body <> JsNull -> Body.status body <> JsNull ->
  statusCode (snd (put s id body)) = 200.
Proof.
  intros Hwf Hin Hm Hb Ht Hs. rewrite put_books_outcome.
  rewrite (updates_of_length body Hb).
  assert (Hv : first_violation rowid_of_text (updates_of body) id (books s)
               = None).
  { pose proof (wf_not_null s Hwf) as Hn. clear Hin.
    induction (books s) as [|x l IH]; simpl; [reflexivity|].
    inversion Hn as [|? ? Hx Hl]; subst.
    destruct (matches id x); [|apply IH; exact Hl].
    unfold not_null_violation.
    pose proof (assign_updates_of body x ColTitle) as E1.
    pose proof (assign_updates_of body x ColStatus) as E2.
    simpl in E1, E2. rewrite E1, E2. destruct Hx as [Hx1 Hx2].
    destruct (Body.title body) as [| |t]; simpl; try contradiction;
      destruct (Body.status body) as [| |st]; simpl; try contradiction;
      destruct (Book.title x); try contradiction;
      destruct (Book.status x); try contradiction; apply IH; exact Hl. }
  rewrite Hv.
  destruct (filter (fun r => matches id r) (books s)) as [|hit hits] eqn:Ef.
  - pose proof (filter_match_nil rowid_of_text _ _ Ef r Hin). congruence.
  - reflexivity.
Qed.

(** C5.  Delete answers 404 and leaves the store as it was when no row
    answers to the id.  Otherwise it answers 200 and removes that one
    row, keeping every other row in place; no List that follows returns
    a row under the id, and a second Delete of the id answers 404. *)
Theorem delete_contract (s : Store) (id : string) :
  reach s ->
  (unmatched id s ->
   delete s id = (s, mkResponse 404 (JMessage "Book not found."))) /\
  (forall r,
     In r (books s) -> matches id r = true ->
     let s' := fst (delete s id) in
     statusCode (snd (delete s id)) = 200 /\
     (exists before after,
        books s = (before ++ r :: after)%list /\
        books s' = (before ++ after)%list) /\
     (forall statusFilter rows,
        json (snd (get_books s' statusFilter)) = JRows rows ->
        ~ In r rows /\ forall x, In x rows -> matches id x = false) /\
     delete s' id = (s', mkResponse 404 (JMessage "Book not found."))).
Proof.
  intros Hr. pose proof (reachable_wf s Hr) as Hwf. split.
  - intros Hm. rewrite delete_books_outcome.
    rewrite (filter_no_match rowid_of_text _ _ Hm). reflexivity.
  - intros r Hin Hm.
    destruct (sorted_split_match rowid_of_text id (books s) r
                (wf_sorted s Hwf) Hin Hm) as [l1 [l2 [E [H1 H2]]]].
    assert (Hgone : unmatched id (fst (delete s id)) /\
                    books (fst (delete s id)) = (l1 ++ l2)%list /\
                    statusCode (snd (delete s id)) = 200).
    { rewrite delete_books_outcome.
      destruct (filter (fun r => matches id r) (books s)) as [|hit hits] eqn:Ef.
      - pose proof (filter_match_nil rowid_of_text _ _ Ef r Hin). congruence.
      - simpl. split; [|split; [|reflexivity]].
        + intros x Hx. simpl in Hx. apply filter_In in Hx.
          destruct Hx as [_ Hx]. apply negb_true_iff in Hx. exact Hx.
        + rewrite E, filter_app. simpl. rewrite Hm. simpl.
          rewrite (filter_keep_no_match rowid_of_text _ _ H1).
          rewrite (filter_keep_no_match rowid_of_text _ _ H2). reflexivity. }
    destruct Hgone as [Hu [Eb H200]]. simpl.
    split; [exact H200|]. split; [exists l1, l2; split; assumption|]. split.
    + intros statusFilter rows Hrows.
      assert (Hsub : forall x, In x rows -> In x (books (fst (delete s id)))).
      { unfold get_books in Hrows. simpl in Hrows.
        injection Hrows as <-. intros x Hx.
        destruct statusFilter as [f|]; simpl in Hx; [|exact Hx].
        destruct (negb (String.eqb f "")); simpl in Hx; [|exact Hx].
        apply filter_In in Hx. tauto. }
      split.
      * intros Hx. pose proof (Hu r (Hsub r Hx)). congruence.
      * intros x Hx. apply Hu. apply Hsub. exact Hx.
    + rewrite delete_books_outcome.
      rewrite (filter_no_match rowid_of_text _ _ Hu). reflexivity.
Qed.

(** C6 (amended).  List without a filter returns every stored Book in
    table order.  List with a non-empty status filter returns the stored
    rows whose status is the filter value, all of them and no others, in
    table order.  In a reachable store table order is the order of the
    ids, which Create hands out in increasing order. *)
Theorem list_contract (s : Store) :
  get_books s None = (s, mkResponse 200 (JRows (books s))) /\
  (forall f,
     f <> "" ->
     exists rows,
       get_books s (Some f) = (s, mkResponse 200 (JRows rows)) /\
       rows = filter (fun r => match Book.status r with
                               | Some st => String.eqb st f
                               | None => false
                               end) (books s) /\
       (forall r, In r rows <-> In r (books s) /\ Book.status r = Some f)) /\
  (reach s ->
   forall statusFilter rows,
     json (snd (get_books s statusFilter)) = JRows rows ->
     StronglySorted Z.lt (map Book.id rows)).
Proof.
  split; [reflexivity|]. split.
  - intros f Hf. eexists. split.
    + unfold get_books. simpl.
      apply String.eqb_neq in Hf. rewrite Hf. simpl. reflexivity.
    + split.
      * apply filter_ext. intros r. unfold sql_text_eq.
        destruct (Book.status r); reflexivity.
      * intros r. rewrite filter_In. unfold sql_text_eq.
        destruct (Book.status r) as [st|].
        -- rewrite String.eqb_eq. split.
           ++ intros [H ->]. auto.
           ++ intros [H E]. injection E as ->. auto.
        -- split; intros [H E]; discriminate.
  - intros Hr statusFilter rows Hrows.
    pose proof (wf_sorted s (reachable_wf s Hr)) as Hs.
    unfold get_books in Hrows. simpl in Hrows. injection Hrows as <-.
    destruct statusFilter as [f|]; simpl; [|exact Hs].
    destruct (negb (String.eqb f "")); simpl; [|exact Hs].
    apply strongly_sorted_filter_ids. exact Hs.
Qed.

(** C10.  A List request whose status filter is the empty string is not
    filtered: it returns the whole table, as a request without a filter
    does. *)
Theorem empty_status_filter_lists_all (s : Store) :
  get_books s (Some "") = (s, mkResponse 200 (JRows (books s))) /\
  get_books s (Some "") = get_books s None.
Proof. split; reflexivity. Qed.


(** ** The claims about the search proxy *)

Local Abbreviation search :=
  (search_books GOOGLE_BOOKS_API_KEY encodeURIComponent fetch).
Local Abbreviation url := (googleBooksApiUrl encodeURIComponent).






(** What [search_books] does once the query and the key are in place. *)
Lemma search_books_upstream (query key : string) :
  query <> "" -> GOOGLE_BOOKS_API_KEY = Some key -> key <> "" ->
  search (Some query) =
    match fetch (url query key) with
    | Fetch.Throws _ =>
        mkResponse 500 (JError upstream_failed)
    | Fetch.Resolves response =>
        if Fetch.ok response then
          match Fetch.json response with
          | None =>
              mkResponse 500 (JError upstream_failed)
          | Some data =>
              mkResponse 200 (JFound (map found_of_item (items_of data)))
          end
        else
          mkResponse (Fetch.status response)
            (JError ("Google Books API error: " ++ Fetch.statusText response
                       ++ ". Check server console for details."))
    end.
Proof.
  intros Hq Ek Hk. unfold search_books. rewrite Ek. simpl.
  apply String.eqb_neq in Hq. apply String.eqb_neq in Hk.
  rewrite Hq, Hk. simpl.
  destruct (fetch (url query key)) as [m|response]; [reflexivity|].
  destruct (Fetch.ok response); simpl; [|reflexivity].
  destruct (Fetch.json response) as [data|]; [|reflexivity].
  unfold items_of. destruct (Volume.items data); reflexivity.
Qed.


(** C8 (amended).  Search never touches the store.  It answers 400 when
    [q] is missing or empty; otherwise 500 with the configuration message
    when the key is not configured; otherwise 500 when the upstream call
    throws or its body does not parse, and, when upstream answers with a
    non-success status, that same status. *)
Theorem search_errors (s : Store) (q : option string) :
  serve s (SearchBooks q) = (s, search q) /\
  (q = None \/ q = Some "" -> statusCode (search q) = 400) /\
  (forall query,
     q = Some query -> query <> "" ->
     (GOOGLE_BOOKS_API_KEY = None \/ GOOGLE_BOOKS_API_KEY = Some "" ->
      search q =
        mkResponse 500 (JError key_not_configured)) /\
     (forall key,
        GOOGLE_BOOKS_API_KEY = Some key -> key <> "" ->
        (forall message,
           fetch (url query key) = Fetch.Throws message ->
           statusCode (search q) = 500) /\
        (forall response,
           fetch (url query key) = Fetch.Resolves response ->
           (Fetch.ok response = false ->
            statusCode (search q) = Fetch.status response /\
            ~ (200 <= statusCode (search q) <= 299)) /\
           (Fetch.ok response = true -> Fetch.json response = None ->
            statusCode (search q) = 500)))).
Proof.
  split; [reflexivity|]. split.
  - intros [->| ->]; reflexivity.
  - intros query -> Hq. split.
    + unfold search_books. simpl.
      pose proof Hq as Hq'. apply String.eqb_neq in Hq'. rewrite Hq'. simpl.
      intros [->| ->]; reflexivity.
    + intros key Ek Hk.
      rewrite (search_books_upstream query key Hq Ek Hk). split.
      * intros message ->. reflexivity.
      * intros response ->. split.
        -- intros Hok. rewrite Hok. simpl. split; [reflexivity|].
           unfold Fetch.ok in Hok. apply andb_false_iff in Hok.
           destruct Hok as [H|H]; apply Z.leb_gt in H; lia.
        -- intros Hok Hj. rewrite Hok, Hj. reflexivity.
Qed.


End ServerProperties.

(** * Properties of the client's status view *)

Section ClientProperties.

Import Client.

Lemma status_tests_exclusive (b : Book) (st : string) :
  status b = JsString st -> In st status_enumeration ->
  let w := strict_eq_string (status b) "Want to Read" in
  let r := strict_eq_string (status b) "Reading" in
  let f := strict_eq_string (status b) "Finished" in
  (w = true /\ r = false /\ f = false) \/
  (w = false /\ r = true /\ f = false) \/
  (w = false /\ r = false /\ f = true).
Proof.
  intros -> Hin. simpl in Hin.
  destruct Hin as [<-|[<-|[<-|[]]]]; simpl; auto.
Qed.

(** Three tests of which every element passes exactly one split a list
    into three sublists that together hold its elements. *)
Lemma three_filters_permutation {A : Type} (p1 p2 p3 : A -> bool)
    (l : list A) :
  (forall x, In x l ->
     (p1 x = true /\ p2 x = false /\ p3 x = false) \/
     (p1 x = false /\ p2 x = true /\ p3 x = false) \/
     (p1 x = false /\ p2 x = false /\ p3 x = true)) ->
  Permutation (filter p1 l ++ filter p2 l ++ filter p3 l) l.
Proof.
  induction l as [|x l IH]; intros H; simpl.
  - constructor.
  - assert (IH' : Permutation (filter p1 l ++ filter p2 l ++ filter p3 l) l).
    { apply IH. intros y Hy. apply H. right. exact Hy. }
    destruct (H x (or_introl eq_refl))
      as [[-> [-> ->]]|[[-> [-> ->]]|[-> [-> ->]]]]; simpl.
    + constructor. exact IH'.
    + apply Permutation_sym, Permutation_cons_app, Permutation_sym. exact IH'.
    + rewrite app_assoc.
      apply Permutation_sym, Permutation_cons_app, Permutation_sym.
      rewrite <- app_assoc. exact IH'.
Qed.

(** C9.  When every book of the cached collection has a status of the
    enumeration, the three buckets together hold exactly the books of the
    collection, every book lies in exactly one bucket, and the collection
    is the same after the derivation as before. *)
Theorem categorized_partition (books : list Book) :
  (forall b, In b books ->
     exists st, status b = JsString st /\ In st status_enumeration) ->
  let buckets := fst (categorizedBooks books) in
  snd (categorizedBooks books) = books /\
  Permutation
    (Want_to_Read buckets ++ Reading buckets ++ Finished buckets) books /\
  (forall b, In b books ->
     (In b (Want_to_Read buckets) /\ ~ In b (Reading buckets) /\
      ~ In b (Finished buckets)) \/
     (~ In b (Want_to_Read buckets) /\ In b (Reading buckets) /\
      ~ In b (Finished buckets)) \/
     (~ In b (Want_to_Read buckets) /\ ~ In b (Reading buckets) /\
      In b (Finished buckets))).
Proof.
  intros H. unfold categorizedBooks, Array_filter. simpl.
  split; [reflexivity|]. split.
  - apply three_filters_permutation. intros b Hb.
    destruct (H b Hb) as [st [Es Hin]].
    exact (status_tests_exclusive b st Es Hin).
  - intros b Hb. destruct (H b Hb) as [st [Es Hin]].
    rewrite !filter_In.
    destruct (status_tests_exclusive b st Es Hin)
      as [[-> [-> ->]]|[[-> [-> ->]]|[-> [-> ->]]]].
    + left. intuition discriminate.
    + right. left. intuition discriminate.
    + right. right. intuition discriminate.
Qed.

End ClientProperties.

(** * The claims at concrete requests *)

Lemma two_books_reachable :
  reachable decimal_rowid no_key plain_uri upstream_down two_books.
Proof.
  exact (reachable_handle _ _ _ _ _ (PostBooks emma_reading)
           (reachable_handle _ _ _ _ _ (PostBooks dune)
              (reachable_empty _ _ _ _))).
Defined.

Lemma only_status_has_field (st : string) :
  ~ no_recognized_fields (only_status st).
Proof.
  intros H. specialize (H ColStatus). discriminate H.
Defined.

Lemma two_books_no_seven : no_row_matches decimal_rowid "7" two_books.
Proof.
  intros r [<-|[<-|[]]]; reflexivity.
Defined.


(** An Update may blank the title of a stored row. *)
Lemma update_blanks_title :
  put_books decimal_rowid two_books "2" (only_title "") =
    (mkStore
       [Book.mkRow 1 (Some "Dune") (Some "Frank Herbert") (Some "Want to Read")
          None None;
        Book.mkRow 2 (Some "") None (Some "Reading") None None] 2,
     mkResponse 200 (JMessageId "Book updated successfully." "2")).
Proof. reflexivity. Qed.



Lemma create_contract_witness :
  reachable decimal_rowid no_key plain_uri upstream_down two_books /\
  (statusCode (snd (post_books two_books emma_reading)) = 400 <->
   missing_or_empty (Body.title emma_reading) \/
   missing_or_empty (Body.status emma_reading)) /\
  (statusCode (snd (post_books two_books (only_status "Reading"))) = 400 <->
   missing_or_empty (Body.title (only_status "Reading")) \/
   missing_or_empty (Body.status (only_status "Reading"))).
Proof.
  split; [exact two_books_reachable|]. split.
  - exact (proj1 (create_contract decimal_rowid no_key plain_uri upstream_down
                    two_books emma_reading two_books_reachable)).
  - exact (proj1 (create_contract decimal_rowid no_key plain_uri upstream_down
                    two_books (only_status "Reading") two_books_reachable)).
Defined.

Lemma update_frame_witness :
  statusCode
    (snd (put_books decimal_rowid two_books "1" (only_status "Reading"))) = 200
  /\ List.length
       (books
          (fst (put_books decimal_rowid two_books "1" (only_status "Reading"))))
     = List.length (books two_books).
Proof.
  split; [reflexivity|].
  exact (proj1 (proj2 (update_frame decimal_rowid two_books "1"
                         (only_status "Reading") eq_refl))).
Defined.

(** C4 as stated fails: with an empty payload and an id that no row
    answers to, Update answers 400, not 404. *)
Lemma update_empty_payload_unknown_id :
  no_row_matches decimal_rowid "7" two_books /\
  put_books decimal_rowid two_books "7" no_fields =
    (two_books, mkResponse 400 (JError "No fields provided for update.")) /\
  statusCode (snd (put_books decimal_rowid two_books "7" no_fields)) <> 404.
Proof.
  split; [exact two_books_no_seven|]. split; [reflexivity|].
  simpl. discriminate.
Qed.

Lemma update_errors_witness :
  (~ no_recognized_fields (only_status "Reading") /\
   no_row_matches decimal_rowid "7" two_books) /\
  statusCode
    (snd (put_books decimal_rowid two_books "7" (only_status "Reading"))) = 404
  /\ fst (put_books decimal_rowid two_books "7" (only_status "Reading"))
     = two_books.
Proof.
  split; [split; [exact (only_status_has_field "Reading")
                 | exact two_books_no_seven]|].
  destruct (update_errors decimal_rowid two_books "7" (only_status "Reading"))
    as [_ [H404 Hsame]].
  split.
  - exact (H404 (only_status_has_field "Reading") two_books_no_seven).
  - apply Hsame. right.
    exact (H404 (only_status_has_field "Reading") two_books_no_seven).
Defined.

Lemma delete_contract_witness :
  reachable decimal_rowid no_key plain_uri upstream_down two_books /\
  (no_row_matches decimal_rowid "7" two_books ->
   delete_books decimal_rowid two_books "7" =
     (two_books, mkResponse 404 (JMessage "Book not found."))) /\
  statusCode (snd (delete_books decimal_rowid two_books "1")) = 200.
Proof.
  split; [exact two_books_reachable|]. split.
  - exact (proj1 (delete_contract decimal_rowid no_key plain_uri upstream_down
                    two_books "7" two_books_reachable)).
  - exact (proj1 (proj2 (delete_contract decimal_rowid no_key plain_uri
                           upstream_down two_books "1" two_books_reachable)
                    (Book.mkRow 1 (Some "Dune") (Some "Frank Herbert")
                       (Some "Want to Read") None None)
                    (or_introl eq_refl) eq_refl)).
Defined.

(** C6 as stated fails: with the empty string as status filter, List
    returns rows whose status is not the filter value. *)
Lemma empty_status_filter_returns_other_rows :
  exists rows,
    json (snd (get_books two_books (Some ""))) = JRows rows /\
    rows = books two_books /\
    ~ (forall r, In r rows <->
                 In r (books two_books) /\ Book.status r = Some "").
Proof.
  eexists. split; [reflexivity|]. split; [reflexivity|].
  intros H.
  destruct (proj1 (H (Book.mkRow 2 (Some "Emma") None (Some "Reading") None
                        None))) as [_ E].
  - right. left. reflexivity.
  - discriminate E.
Qed.

Lemma list_contract_witness :
  ("Reading" <> "" /\
   reachable decimal_rowid no_key plain_uri upstream_down two_books) /\
  (exists rows,
     get_books two_books (Some "Reading") =
       (two_books, mkResponse 200 (JRows rows)) /\
     rows = filter (fun r => match Book.status r with
                             | Some st => String.eqb st "Reading"
                             | None => false
                             end) (books two_books) /\
     (forall r, In r rows <->
                In r (books two_books) /\ Book.status r = Some "Reading")) /\
  StronglySorted Z.lt (map Book.id (books two_books)).
Proof.
  assert (Hne : "Reading" <> "") by discriminate.
  split; [split; [exact Hne | exact two_books_reachable]|].
  destruct (list_contract decimal_rowid no_key plain_uri upstream_down
              two_books) as [_ [Hf Hs]].
  split.
  - exact (Hf "Reading" Hne).
  - exact (Hs two_books_reachable None (books two_books) eq_refl).
Defined.


(** An upstream title that is the empty string is replaced by the
    default. *)
Lemma search_replaces_empty_title :
  Volume.title (Volume.volumeInfo untitled_volume) = JsString "" /\
  Found.title (found_of_item untitled_volume) = JsString "N/A".
Proof. split; reflexivity. Qed.


(** C8 as stated fails: when upstream answers 403, Search answers 403, not
    500. *)
Lemma search_propagates_upstream_status :
  Fetch.ok (Fetch.mkResponse 403 "Forbidden" None) = false /\
  search_books some_key plain_uri upstream_forbidden (Some "dune") =
    mkResponse 403
      (JError "Google Books API error: Forbidden. Check server console for details.") /\
  statusCode
    (search_books some_key plain_uri upstream_forbidden (Some "dune")) <> 500.
Proof.
  split; [reflexivity|]. split; [reflexivity|]. simpl. discriminate.
Qed.

Lemma search_errors_witness :
  ("dune" <> "" /\ some_key = Some "k3y" /\ "k3y" <> "" /\
   Fetch.ok (Fetch.mkResponse 403 "Forbidden" None) = false) /\
  statusCode (search_books some_key plain_uri upstream_forbidden (Some "dune"))
    = 403 /\
  statusCode (search_books no_key plain_uri upstream_forbidden (Some "dune"))
    = 500 /\
  statusCode (search_books some_key plain_uri upstream_down (Some "dune"))
    = 500 /\
  statusCode (search_books no_key plain_uri upstream_down None) = 400.
Proof.
  assert (Hq : "dune" <> "") by discriminate.
  assert (Hk : "k3y" <> "") by discriminate.
  split; [repeat split; try reflexivity; assumption|].
  split; [|split; [|split]].
  - destruct (search_errors decimal_rowid some_key plain_uri upstream_forbidden
                two_books (Some "dune")) as [_ [_ H]].
    destruct (H "dune" eq_refl Hq) as [_ Hkey].
    destruct (Hkey "k3y" eq_refl Hk) as [_ Hup].
    destruct (Hup (Fetch.mkResponse 403 "Forbidden" None) eq_refl) as [Hbad _].
    exact (proj1 (Hbad eq_refl)).
  - destruct (search_errors decimal_rowid no_key plain_uri upstream_forbidden
                two_books (Some "dune")) as [_ [_ H]].
    destruct (H "dune" eq_refl Hq) as [Hnokey _].
    rewrite (Hnokey (or_introl eq_refl)). reflexivity.
  - destruct (search_errors decimal_rowid some_key plain_uri upstream_down
                two_books (Some "dune")) as [_ [_ H]].
    destruct (H "dune" eq_refl Hq) as [_ Hkey].
    destruct (Hkey "k3y" eq_refl Hk) as [Hthrow _].
    exact (Hthrow "connect ECONNREFUSED" eq_refl).
  - destruct (search_errors decimal_rowid no_key plain_uri upstream_down
                two_books None) as [_ [H _]].
    exact (H (or_introl eq_refl)).
Defined.

Lemma shelf_statuses :
  forall b, In b shelf ->
    exists st, Client.status b = JsString st /\ In st status_enumeration.
Proof.
  intros b [<-|[<-|[<-|[<-|[]]]]]; eexists; (split; [reflexivity|]); simpl; auto.
Defined.

Lemma categorized_partition_witness :
  (forall b, In b shelf ->
     exists st, Client.status b = JsString st /\ In st status_enumeration) /\
  snd (Client.categorizedBooks shelf) = shelf /\
  Permutation
    (Client.Want_to_Read (fst (Client.categorizedBooks shelf)) ++
     Client.Reading (fst (Client.categorizedBooks shelf)) ++
     Client.Finished (fst (Client.categorizedBooks shelf))) shelf.
Proof.
  split; [exact shelf_statuses|].
  destruct (categorized_partition shelf shelf_statuses) as [H1 [H2 _]].
  split; [exact H1 | exact H2].
Defined.

(** * Further properties of the handlers *)

Lemma row_ext (a b : Book.Row) :
  Book.id a = Book.id b -> (forall c, get_col c a = get_col c b) -> a = b.
Proof.
  intros Hid H. destruct a, b. simpl in Hid.
  pose proof (H ColTitle). pose proof (H ColAuthor). pose proof (H ColStatus).
  pose proof (H ColNotes). pose proof (H ColCoverImageUrl).
  simpl in *. congruence.
Qed.

Lemma assign_updates_idempotent (body : Body.t) (r : Book.Row) :
  assign (updates_of body) (assign (updates_of body) r)
  = assign (updates_of body) r.
Proof.
  apply row_ext.
  - rewrite !assign_id. reflexivity.
  - intros c. rewrite !assign_updates_of.
    destruct (defined (payload_field c body)); reflexivity.
Qed.

(** On rows whose NOT NULL columns hold a text, the SET clause of a
    payload breaks a constraint exactly when it binds NULL to the title or
    to the status. *)
Lemma violation_iff_null (body : Body.t) (r : Book.Row) :
  not_null_columns r ->
  (not_null_violation (assign (updates_of body) r) <> None <->
   Body.title body = JsNull \/ Body.status body = JsNull).
Proof.
  intros [Ht Hs]. unfold not_null_violation.
  pose proof (assign_updates_of body r ColTitle) as E1.
  pose proof (assign_updates_of body r ColStatus) as E2.
  simpl in E1, E2. rewrite E1, E2.
  destruct (Body.title body) as [| |t]; destruct (Body.status body) as [| |st];
    simpl; destruct (Book.title r); destruct (Book.status r);
    try contradiction;
    (split; [intros H; try (exfalso; apply H; reflexivity); auto
            | intros [H|H]; try discriminate H; discriminate]).
Qed.

Section ServerFurther.

Variable rowid_of_text : string -> option Z.
Variable GOOGLE_BOOKS_API_KEY : option string.
Variable encodeURIComponent : string -> string.
Variable fetch : string -> Fetch.Outcome.

Local Abbreviation matches := (id_matches rowid_of_text).
Local Abbreviation put := (put_books rowid_of_text).
Local Abbreviation delete := (delete_books rowid_of_text).
Local Abbreviation unmatched := (no_row_matches rowid_of_text).
Local Abbreviation serve :=
  (handle rowid_of_text GOOGLE_BOOKS_API_KEY encodeURIComponent fetch).
Local Abbreviation reach :=
  (reachable rowid_of_text GOOGLE_BOOKS_API_KEY encodeURIComponent fetch).
Local Abbreviation after :=
  (run rowid_of_text GOOGLE_BOOKS_API_KEY encodeURIComponent fetch).
Local Abbreviation search :=
  (search_books GOOGLE_BOOKS_API_KEY encodeURIComponent fetch).
Local Abbreviation url := (googleBooksApiUrl encodeURIComponent).

Local Abbreviation updated id body :=
  (fun r : Book.Row =>
     if matches id r then assign (updates_of body) r else r).

Lemma assign_matches (id : string) (sets : list (Column * JsValue))
    (r : Book.Row) :
  matches id (assign sets r) = matches id r.
Proof.
  unfold id_matches. rewrite assign_id. reflexivity.
Qed.

Lemma updated_matches (id : string) (body : Body.t) (r : Book.Row) :
  matches id (updated id body r) = matches id r.
Proof.
  cbv beta. destruct (matches id r) eqn:E; [|exact E].
  rewrite assign_matches. exact E.
Qed.

Lemma updated_twice (id : string) (body : Body.t) (r : Book.Row) :
  updated id body (updated id body r) = updated id body r.
Proof.
  cbv beta. destruct (matches id r) eqn:E.
  - rewrite assign_matches, E. apply assign_updates_idempotent.
  - rewrite E. reflexivity.
Qed.

Lemma first_violation_updated (id : string) (body : Body.t)
    (l : list Book.Row) :
  first_violation rowid_of_text (updates_of body) id l = None ->
  first_violation rowid_of_text (updates_of body) id (map (updated id body) l)
  = None.
Proof.
  induction l as [|x l IH]; simpl; intros H; [reflexivity|].
  destruct (matches id x) eqn:E.
  - rewrite assign_matches, E, assign_updates_idempotent.
    destruct (not_null_violation (assign (updates_of body) x));
      [discriminate|]. apply IH. exact H.
  - rewrite E. apply IH. exact H.
Qed.

Lemma filter_updated (id : string) (body : Body.t) (l : list Book.Row) :
  filter (fun r => matches id r) (map (updated id body) l)
  = map (updated id body) (filter (fun r => matches id r) l).
Proof.
  induction l as [|x l IH]; simpl; [reflexivity|].
  destruct (matches id x) eqn:E.
  - rewrite assign_matches, E. simpl. rewrite E. f_equal. exact IH.
  - rewrite E. exact IH.
Qed.

(** X1.  Update is idempotent: the same PUT sent again answers as it did
    the first time and leaves the store as the first one left it. *)
Theorem update_idempotent (s : Store) (id : string) (body : Body.t) :
  put (fst (put s id body)) id body
  = (fst (put s id body), snd (put s id body)).
Proof.
  rewrite (put_books_outcome rowid_of_text s id body).
  destruct (Nat.eqb (List.length (updates_of body)) 0) eqn:El.
  - simpl. apply put_books_empty. apply updates_of_nil_iff.
    destruct (updates_of body); [reflexivity | discriminate].
  - destruct (first_violation rowid_of_text (updates_of body) id (books s))
      eqn:Ev.
    + simpl. rewrite put_books_outcome, El, Ev. reflexivity.
    + destruct (filter (fun r => matches id r) (books s)) as [|hit hits]
        eqn:Ef.
      * simpl. rewrite put_books_outcome, El, Ev, Ef. reflexivity.
      * simpl. rewrite put_books_outcome, El. simpl.
        rewrite (first_violation_updated id body _ Ev).
        rewrite filter_updated, Ef. simpl.
        rewrite map_map. f_equal. f_equal.
        apply map_ext. intros r. apply updated_twice.
Qed.

Lemma first_violation_some_iff (id : string) (body : Body.t)
    (l : list Book.Row) :
  Forall not_null_columns l ->
  (first_violation rowid_of_text (updates_of body) id l <> None <->
   (exists r, In r l /\ matches id r = true) /\
   (Body.title body = JsNull \/ Body.status body = JsNull)).
Proof.
  induction 1 as [|x l Hx Hl IH]; simpl.
  - split; [intros H; contradiction | intros [[r [[] _]] _]].
  - destruct (matches id x) eqn:E.
    + pose proof (violation_iff_null body x Hx) as Hv.
      destruct (not_null_violation (assign (updates_of body) x)) as [c|].
      * split; [|discriminate]. intros _. split.
        -- exists x. auto.
        -- apply Hv. discriminate.
      * rewrite IH. split.
        -- intros [[r [Hr Hm]] Hn]. split; [exists r; auto | exact Hn].
        -- intros [_ Hn]. exfalso.
           destruct Hv as [_ Hv]. apply Hv; [exact Hn | reflexivity].
    + rewrite IH. split.
      * intros [[r [Hr Hm]] Hn]. split; [exists r; auto | exact Hn].
      * intros [[r [[<-|Hr] Hm]] Hn]; [congruence|].
        split; [exists r; auto | exact Hn].
Qed.

(** X2.  In a reachable store the four answers of Update are told apart by
    the payload and the id alone: 400 for a payload without a recognized
    field; otherwise 404 when no row answers to the id; otherwise 500 when
    the payload gives [null] for title or status; otherwise 200.  Only a 200
    changes the store. *)
Theorem update_outcomes (s : Store) (id : string) (body : Body.t) :
  reach s ->
  let code := statusCode (snd (put s id body)) in
  let some_row := exists r, In r (books s) /\ matches id r = true in
  let null_required :=
    Body.title body = JsNull \/ Body.status body = JsNull in
  (code = 400 <-> no_recognized_fields body) /\
  (code = 404 <-> ~ no_recognized_fields body /\ unmatched id s) /\
  (code = 500 <->
   ~ no_recognized_fields body /\ some_row /\ null_required) /\
  (code = 200 <->
   ~ no_recognized_fields body /\ some_row /\ ~ null_required) /\
  (code <> 200 -> fst (put s id body) = s).
Proof.
  intros Hr code some_row null_required. subst code some_row null_required.
  pose proof (wf_not_null s (reachable_wf _ _ _ _ s Hr)) as Hn.
  pose proof (first_violation_some_iff id body (books s) Hn) as Hv.
  pose proof (updates_of_nil_iff body) as Hnil.
  rewrite (put_books_outcome rowid_of_text s id body).
  destruct (updates_of body) as [|u us] eqn:Eu.
  - assert (Hb : no_recognized_fields body) by (apply Hnil; reflexivity).
    simpl. repeat split; try discriminate; try tauto; intros; exfalso; tauto.
  - assert (Hb : ~ no_recognized_fields body).
    { intros H. apply Hnil in H. discriminate. }
    simpl.
    destruct (first_violation rowid_of_text (u :: us) id (books s)) as [c|]
      eqn:Ev.
    + assert (Hsome : (exists r, In r (books s) /\ matches id r = true) /\
                      (Body.title body = JsNull \/ Body.status body = JsNull))
        by (apply Hv; discriminate).
      destruct Hsome as [[r [Hin Hm]] Hnull]. simpl.
      repeat split; try discriminate; try tauto; eauto.
      intros [_ Hu]. specialize (Hu r Hin). congruence.
    + assert (Hnone : ~ ((exists r, In r (books s) /\ matches id r = true) /\
                         (Body.title body = JsNull \/
                          Body.status body = JsNull))).
      { intros H. apply Hv in H. apply H. reflexivity. }
      destruct (filter (fun r => matches id r) (books s)) as [|hit hits]
        eqn:Ef; simpl.
      * pose proof (filter_match_nil rowid_of_text _ _ Ef) as Hu.
        repeat split; try discriminate; try tauto.
        intros [_ [[r [Hin Hm]] _]]. specialize (Hu r Hin). congruence.
      * assert (Hin : In hit (filter (fun r => matches id r) (books s)))
          by (rewrite Ef; left; reflexivity).
        apply filter_In in Hin.
        repeat split; try discriminate; try tauto; eauto.
        intros [_ Hu]. specialize (Hu hit (proj1 Hin)).
        destruct Hin. congruence.
Qed.

Lemma handle_sequence_mono (s : Store) (req : Request) :
  sqlite_sequence s <= sqlite_sequence (fst (serve s req)).
Proof.
  destruct req as [f|body|id body|id|q]; simpl.
  - lia.
  - destruct (post_books_cases body) as [H|[Ht Hs]].
    + rewrite (post_books_rejected s body H). simpl. lia.
    + rewrite (post_books_accepted s body Ht Hs). simpl. lia.
  - rewrite put_books_outcome.
    destruct (Nat.eqb (List.length (updates_of body)) 0); [simpl; lia|].
    destruct (first_violation rowid_of_text (updates_of body) id (books s));
      [simpl; lia|].
    destruct (filter (fun r => matches id r) (books s)); simpl; lia.
  - rewrite delete_books_outcome.
    destruct (filter (fun r => matches id r) (books s)); simpl; lia.
  - lia.
Qed.

Lemma run_wf (s : Store) (reqs : list Request) :
  store_wf s -> store_wf (after s reqs).
Proof.
  revert s. induction reqs as [|req reqs IH]; intros s Hwf; simpl.
  - exact Hwf.
  - apply IH. apply handle_wf. exact Hwf.
Qed.

Lemma run_sequence_mono (s : Store) (reqs : list Request) :
  sqlite_sequence s <= sqlite_sequence (after s reqs).
Proof.
  revert s. induction reqs as [|req reqs IH]; intros s; simpl.
  - lia.
  - pose proof (handle_sequence_mono s req).
    pose proof (IH (fst (serve s req))). lia.
Qed.

(** X3.  An id is never handed out twice.  Whatever requests are served
    after a row was stored, deletions of that row included, the id a later
    Create assigns is larger than the id of that row and than every id in
    the table at that time. *)
Theorem ids_never_reused (s : Store) (r : Book.Row) (reqs : list Request)
    (body : Body.t) :
  reach s -> In r (books s) ->
  statusCode (snd (post_books (after s reqs) body)) = 201 ->
  exists newid,
    snd (post_books (after s reqs) body) =
      mkResponse 201
        (JBook newid (Body.title body) (Body.author body) (Body.status body)
           (Body.notes body) (Body.coverImageUrl body)) /\
    Book.id r < newid /\
    Forall (fun x => Book.id x < newid) (books (after s reqs)).
Proof.
  intros Hr Hin H201.
  pose proof (reachable_wf _ _ _ _ s Hr) as Hwf.
  pose proof (run_wf s reqs Hwf) as Hwf'.
  pose proof (run_sequence_mono s reqs) as Hmono.
  destruct (post_books_cases body) as [H|[Ht Hs]].
  - rewrite (post_books_rejected _ body H) in H201. discriminate.
  - rewrite (post_books_accepted _ body Ht Hs). simpl.
    eexists. split; [reflexivity|]. split.
    + pose proof (wf_bounds s Hwf) as Hb. rewrite Forall_forall in Hb.
      specialize (Hb r Hin). simpl in Hb. lia.
    + eapply Forall_impl; [|exact (wf_bounds _ Hwf')]. simpl. intros x Hx. lia.
Qed.

(** X4.  Create followed by Delete of the assigned id gives back the rows
    the table had; only the id counter has moved on. *)
Theorem create_then_delete (s : Store) (body : Body.t) (id : string) :
  reach s ->
  statusCode (snd (post_books s body)) = 201 ->
  rowid_of_text id = Some (sqlite_sequence s + 1) ->
  delete (fst (post_books s body)) id =
    (mkStore (books s) (sqlite_sequence s + 1),
     mkResponse 200 (JMessageId "Book deleted successfully." id)).
Proof.
  intros Hr H201 Hid.
  pose proof (wf_bounds s (reachable_wf _ _ _ _ s Hr)) as Hb.
  destruct (post_books_cases body) as [H|[Ht Hs]].
  - rewrite (post_books_rejected _ body H) in H201. discriminate.
  - rewrite (post_books_accepted _ body Ht Hs). simpl.
    set (row := Book.mkRow (sqlite_sequence s + 1) (bind (Body.title body))
                  (bind (Body.author body)) (bind (Body.status body))
                  (bind (Body.notes body)) (bind (Body.coverImageUrl body))).
    assert (Hold : forall x, In x (books s) -> matches id x = false).
    { intros x Hx. rewrite Forall_forall in Hb. specialize (Hb x Hx).
      simpl in Hb. unfold id_matches. rewrite Hid. apply Z.eqb_neq. lia. }
    assert (Hnew : matches id row = true).
    { unfold id_matches. rewrite Hid. apply Z.eqb_refl. }
    rewrite delete_books_outcome. cbn [books sqlite_sequence].
    rewrite !filter_app. cbn [filter]. rewrite Hnew. cbn [negb].
    rewrite (filter_no_match rowid_of_text _ _ Hold).
    rewrite (filter_keep_no_match rowid_of_text _ _ Hold).
    cbn [app]. rewrite app_nil_r. reflexivity.
Qed.

(** X5.  After an Update that succeeded with a non-empty status, every row
    under the id is returned by List filtered on that status and by no List
    filtered on another non-empty status. *)
Theorem update_then_list (s : Store) (id : string) (body : Body.t)
    (st : string) :
  statusCode (snd (put s id body)) = 200 ->
  Body.status body = JsString st -> st <> "" ->
  forall r,
    In r (books (fst (put s id body))) -> matches id r = true ->
    (exists rows,
       snd (get_books (fst (put s id body)) (Some st)) =
         mkResponse 200 (JRows rows) /\ In r rows) /\
    (forall other rows,
       other <> "" -> other <> st ->
       snd (get_books (fst (put s id body)) (Some other)) =
         mkResponse 200 (JRows rows) ->
       ~ In r rows).
Proof.
  intros H200 Est Hst r Hin Hm.
  assert (Hstatus : Book.status r = Some st).
  { revert H200 Hin. rewrite put_books_outcome.
    destruct (Nat.eqb (List.length (updates_of body)) 0); [discriminate|].
    destruct (first_violation rowid_of_text (updates_of body) id (books s));
      [discriminate|].
    destruct (filter (fun r => matches id r) (books s)); [discriminate|].
    simpl. intros _ Hin. apply in_map_iff in Hin.
    destruct Hin as [x [<- Hx]].
    destruct (matches id x) eqn:E.
    - pose proof (assign_updates_of body x ColStatus) as Ea. simpl in Ea.
      rewrite Ea, Est. reflexivity.
    - congruence. }
  split.
  - eexists. unfold get_books. simpl.
    pose proof Hst as Hst'. apply String.eqb_neq in Hst'. rewrite Hst'. simpl.
    split; [reflexivity|]. apply filter_In. split; [exact Hin|].
    rewrite Hstatus. simpl. apply String.eqb_refl.
  - intros other rows Ho Hne. unfold get_books. simpl.
    pose proof Ho as Ho'. apply String.eqb_neq in Ho'. rewrite Ho'. simpl.
    intros E. injection E as <-. intros Hr. apply filter_In in Hr.
    destruct Hr as [_ Hr]. rewrite Hstatus in Hr. simpl in Hr.
    apply String.eqb_eq in Hr. congruence.
Qed.

Lemma search_ok_only_if (q : option string) :
  statusCode (search q) = 200 ->
  exists query key response data,
    q = Some query /\ query <> "" /\
    GOOGLE_BOOKS_API_KEY = Some key /\ key <> "" /\
    fetch (url query key) = Fetch.Resolves response /\
    Fetch.ok response = true /\ Fetch.json response = Some data /\
    search q = mkResponse 200 (JFound (map found_of_item (items_of data))).
Proof.
  destruct q as [query|]; [|discriminate].
  destruct (String.eqb query "") eqn:Eq.
  { unfold search_books. simpl. rewrite Eq. discriminate. }
  apply String.eqb_neq in Eq.
  destruct GOOGLE_BOOKS_API_KEY as [key|] eqn:Ek.
  2:{ unfold search_books. simpl.
      pose proof Eq as Eq'. apply String.eqb_neq in Eq'. rewrite Eq'.
      discriminate. }
  destruct (String.eqb key "") eqn:Ekey.
  { unfold search_books. simpl.
    pose proof Eq as Eq'. apply String.eqb_neq in Eq'. rewrite Eq', Ekey.
    discriminate. }
  apply String.eqb_neq in Ekey.
  rewrite (search_books_upstream (Some key) encodeURIComponent fetch
             query key Eq eq_refl Ekey).
  destruct (fetch (url query key)) as [m|response] eqn:Ef; [discriminate|].
  destruct (Fetch.ok response) eqn:Eok.
  - destruct (Fetch.json response) as [data|] eqn:Ej; [|discriminate].
    intros _. exists query, key, response, data. repeat split; auto.
  - simpl. intros H. exfalso.
    unfold Fetch.ok in Eok. rewrite H in Eok. discriminate.
Qed.

(** X6.  Search answers 200 exactly when the query and the key are
    non-empty and the upstream call resolved to an ok response whose body
    parsed; an upstream status outside 200-299 is never turned into a
    200. *)
Theorem search_ok_iff (q : option string) :
  statusCode (search q) = 200 <->
  exists query key response data,
    q = Some query /\ query <> "" /\
    GOOGLE_BOOKS_API_KEY = Some key /\ key <> "" /\
    fetch (url query key) = Fetch.Resolves response /\
    Fetch.ok response = true /\ Fetch.json response = Some data.
Proof.
  split.
  - intros H. destruct (search_ok_only_if q H)
      as [query [key [response [data [H1 [H2 [H3 [H4 [H5 [H6 [H7 _]]]]]]]]]]].
    exists query, key, response, data. repeat split; assumption.
  - intros [query [key [response [data [-> [Hq [Ek [Hk [Ef [Hok Hj]]]]]]]]]].
    rewrite (search_books_upstream GOOGLE_BOOKS_API_KEY encodeURIComponent
               fetch query key Hq Ek Hk), Ef, Hok, Hj.
    reflexivity.
Qed.

Lemma filter_map_commute {A B : Type} (f : A -> B) (p : B -> bool)
    (l : list A) :
  filter p (map f l) = map f (filter (fun x => p (f x)) l).
Proof.
  induction l as [|x l IH]; simpl; [reflexivity|].
  destruct (p (f x)); simpl; rewrite IH; reflexivity.
Qed.

(** X7.  The client's bucket for a status holds the same books, in the same
    order, as List filtered on that status returns: categorizing the
    fetched collection agrees with filtering on the server. *)
Theorem buckets_agree_with_filters (s : Store) (o : App.StatusOption) :
  exists rows,
    get_books s (Some (App.option_value o)) =
      (s, mkResponse 200 (JRows rows)) /\
    bucket o (fst (Client.categorizedBooks (map book_of_row (books s))))
    = map book_of_row rows.
Proof.
  eexists. split.
  - destruct o; reflexivity.
  - destruct o; simpl; rewrite filter_map_commute; f_equal;
      apply filter_ext; intros r; simpl;
      destruct (Book.status r); reflexivity.
Qed.


Lemma strongly_sorted_nodup (l : list Z) :
  StronglySorted Z.lt l -> NoDup l.
Proof.
  induction 1 as [|a l Hl IH Ha]; constructor.
  - intros Hin. rewrite Forall_forall in Ha. specialize (Ha a Hin). lia.
  - exact IH.
Qed.

(** X18.  In every store the server can reach, the ids are positive, grow
    along the table, so that no two rows share one, and none is larger than
    the counter the next id is taken from. *)
Theorem reachable_ids_increasing (s : Store) :
  reach s ->
  StronglySorted Z.lt (map Book.id (books s)) /\
  NoDup (map Book.id (books s)) /\
  Forall (fun r => 0 < Book.id r <= sqlite_sequence s) (books s).
Proof.
  intros Hr. pose proof (reachable_wf _ _ _ _ s Hr) as [_ Hb Hs _].
  split; [exact Hs|]. split; [apply strongly_sorted_nodup; exact Hs|].
  exact Hb.
Qed.


End ServerFurther.

(** * Properties of the client's handlers *)

Lemma mirrors_book_of_row (r : Book.Row) : mirrors (book_of_row r) r.
Proof.
  split; [reflexivity|]. intros c.
  destruct r as [i t a st n cv]. destruct c; simpl;
    match goal with |- bind (json_of_cell ?x) = _ => destruct x end;
    reflexivity.
Qed.

Lemma mirror_book_of_row (s : Store) : mirror (map book_of_row (books s)) s.
Proof.
  unfold mirror. induction (books s) as [|r l IH]; simpl; constructor.
  - apply mirrors_book_of_row.
  - exact IH.
Qed.

Lemma client_field_spread (c : Column) (b : Client.Book) (u : App.Updates) :
  client_field c (App.spread b u) =
    match App.update_key c u with
    | Some v => v
    | None => client_field c b
    end.
Proof. destruct c; reflexivity. Qed.

Lemma payload_field_body_of_updates (c : Column) (u : App.Updates) :
  payload_field c (App.body_of_updates u) =
    match App.update_key c u with
    | Some v => v
    | None => JsUndefined
    end.
Proof. destruct c; reflexivity. Qed.

(** The spread on the client and the SET clause on the server do the same
    to a book and its row, provided no key of [updates] holds
    [undefined]. *)
Lemma spread_mirrors (b : Client.Book) (r : Book.Row) (u : App.Updates) :
  (forall c, App.update_key c u <> Some JsUndefined) ->
  mirrors b r ->
  mirrors (App.spread b u) (assign (updates_of (App.body_of_updates u)) r).
Proof.
  intros Hu [Hid Hf]. split.
  - rewrite assign_id. exact Hid.
  - intros c. rewrite assign_updates_of, client_field_spread,
      payload_field_body_of_updates.
    specialize (Hu c). destruct (App.update_key c u) as [[| |v]|]; simpl;
      try reflexivity; try apply Hf. contradiction Hu. reflexivity.
Qed.

Lemma failed_reports_failure (text : string) (st : App.State) :
  reports_failure (App.failed text st) st.
Proof.
  unfold reports_failure, same_data. simpl.
  repeat split; discriminate.
Qed.

(** X9.  A request that did not succeed, because the fetch rejected or the
    response was not ok, costs the client nothing: each of the five
    handlers leaves the books, the view, the form and the search state as
    they were, lowers the loading flag and raises an error text. *)
Theorem failed_request_keeps_data (captured st : App.State)
    (fetched : App.Fetched) (id : Z) (updates : App.Updates) :
  unsuccessful fetched ->
  (exists st', App.fetchBooks_finish fetched st = Some st' /\
               reports_failure st' st) /\
  (exists st', App.handleSearchBooks_finish fetched st = Some st' /\
               reports_failure st' st) /\
  (exists st', App.handleAddBook_finish captured fetched st = Some st' /\
               reports_failure st' st) /\
  (exists st', App.handleUpdateBook_finish captured id updates fetched st
               = Some st' /\ reports_failure st' st) /\
  (exists st', App.handleDeleteBook_finish captured id fetched st = Some st' /\
               reports_failure st' st).
Proof.
  intros H. destruct fetched as [m|response]; simpl in H.
  - repeat split; eexists; (split; [reflexivity|]);
      apply failed_reports_failure.
  - unfold App.fetchBooks_finish, App.handleSearchBooks_finish,
      App.handleAddBook_finish, App.handleUpdateBook_finish,
      App.handleDeleteBook_finish. rewrite H. simpl.
    repeat split; eexists; (split; [reflexivity|]);
      apply failed_reports_failure.
Qed.

(** * Properties of client and server together *)

Section SystemProperties.

Variable rowid_of_text : string -> option Z.
Variable GOOGLE_BOOKS_API_KEY : option string.
Variable encodeURIComponent : string -> string.
Variable fetch : string -> Fetch.Outcome.
Variable trim : string -> string.

Local Abbreviation matches := (id_matches rowid_of_text).
Local Abbreviation search :=
  (search_books GOOGLE_BOOKS_API_KEY encodeURIComponent fetch).
Local Abbreviation serve :=
  (handle rowid_of_text GOOGLE_BOOKS_API_KEY encodeURIComponent fetch).
Local Abbreviation act :=
  (step rowid_of_text GOOGLE_BOOKS_API_KEY encodeURIComponent fetch trim).
Local Abbreviation play :=
  (session rowid_of_text GOOGLE_BOOKS_API_KEY encodeURIComponent fetch trim).
Local Abbreviation status_set o :=
  (App.status_update (App.option_value o)).

(** Whenever the client finds a search response ok, its body is a list of
    results: the statuses Search passes on from upstream are never in the
    range 200-299. *)
Lemma search_ok_body (q : option string) :
  App.ok (search q) = true -> exists found, json (search q) = JFound found.
Proof.
  unfold search_books.
  destruct q as [query|]; [|discriminate].
  destruct (negb (truthy_opt (Some query))); [discriminate|].
  destruct GOOGLE_BOOKS_API_KEY as [key|]; [|discriminate].
  destruct (negb (truthy_opt (Some key))); [discriminate|].
  destruct (fetch _) as [m|response]; [discriminate|].
  destruct (negb (Fetch.ok response)) eqn:Eok.
  - apply negb_true_iff in Eok. unfold App.ok. simpl.
    unfold Fetch.ok in Eok. congruence.
  - destruct (Fetch.json response); [|discriminate].
    intros _. eexists. reflexivity.
Qed.

(** What one user action does to the table and to the client's list. *)
Lemma step_effect (online : bool) (s : Store) (st : App.State)
    (ev : App.Event) :
  exists s' st',
    act online (s, st) ev = Some (s', st') /\
    ((s' = s /\ App.books st' = App.books st) \/
     (s' = s /\ App.books st' = map book_of_row (books s)) \/
     (exists row book,
        books s' = (books s ++ [row])%list /\
        App.books st' = (App.books st ++ [book])%list /\
        mirrors book row /\
        (exists t, Book.title row = Some t /\ t <> "") /\
        Book.status row = Some (App.newBookStatus st)) \/
     (exists id o,
        books s' =
          map (fun r => if matches (number_to_string id) r
                        then assign
                               (updates_of (App.body_of_updates (status_set o)))
                               r
                        else r) (books s) /\
        App.books st' =
          map (fun b => if Z.eqb (Client.id b) id
                        then App.spread b (status_set o) else b)
            (App.books st)) \/
     (exists id,
        books s' =
          filter (fun r => negb (matches (number_to_string id) r)) (books s) /\
        App.books st' =
          filter (fun b => negb (Z.eqb (Client.id b) id)) (App.books st))) /\
    (App.newBookStatus st' = App.newBookStatus st \/
     exists o, App.newBookStatus st' = App.option_value o).
Proof.
  destruct ev as [| | |v| |index|v|v|o|v|v| |id o|id|]; simpl;
    try (eexists; eexists; split; [reflexivity|]; split;
         [left; split; reflexivity | left; reflexivity]).
  - (* Mount *)
    unfold settle, exchange. destruct online; simpl.
    + eexists; eexists. split; [reflexivity|]. split.
      * right. left. split; reflexivity.
      * left. reflexivity.
    + eexists; eexists. split; [reflexivity|]. split.
      * left. split; reflexivity.
      * left. reflexivity.
  - (* ClickSearch *)
    unfold App.handleSearchBooks_start.
    destruct (String.eqb (trim (App.searchQuery st)) "").
    + eexists; eexists. split; [reflexivity|]. split.
      * left. split; reflexivity.
      * left. reflexivity.
    + unfold settle, exchange. destruct online.
      * cbn [handle fst snd].
        set (response := search (Some (App.searchQuery st))).
        unfold App.handleSearchBooks_finish.
        destruct (App.ok response) eqn:Eok; cbn [negb].
        -- destruct (search_ok_body _ Eok) as [found Ef].
           change (json response = JFound found) in Ef. rewrite Ef.
           eexists; eexists. split; [reflexivity|]. split.
           ++ left. split; reflexivity.
           ++ left. reflexivity.
        -- eexists; eexists. split; [reflexivity|]. split.
           ++ left. split; reflexivity.
           ++ left. reflexivity.
      * eexists; eexists. split; [reflexivity|]. split.
        -- left. split; reflexivity.
        -- left. reflexivity.
  - (* ClickUseThis *)
    destruct (nth_error (App.searchResults st) index);
      (eexists; eexists; split; [reflexivity|]; split;
       [left; split; reflexivity | left; reflexivity]).
  - (* SelectStatus *)
    eexists; eexists. split; [reflexivity|]. split.
    + left. split; reflexivity.
    + right. exists o. reflexivity.
  - (* SubmitForm *)
    unfold settle, exchange. destruct online; simpl.
    + destruct (post_books_cases (App.bookData st)) as [H|[Ht Hs]].
      * rewrite (post_books_rejected s _ H). simpl.
        eexists; eexists. split; [reflexivity|]. split.
        -- left. split; reflexivity.
        -- left. reflexivity.
      * rewrite (post_books_accepted s _ Ht Hs). simpl.
        eexists; eexists. split; [reflexivity|]. split.
        -- right. right. left. eexists; eexists.
           split; [reflexivity|]. split; [reflexivity|].
           split; [split; [reflexivity | intros c; destruct c; reflexivity]|].
           simpl. split; [|reflexivity].
           destruct (truthy_true_string _ Ht) as [t [Et Nt]].
           simpl in Et. rewrite Et. simpl. eauto.
        -- right. exists App.OptWantToRead. reflexivity.
    + eexists; eexists. split; [reflexivity|]. split.
      * left. split; reflexivity.
      * left. reflexivity.
  - (* SelectCardStatus *)
    unfold settle, exchange. destruct online; simpl.
    + rewrite put_books_outcome.
      destruct (Nat.eqb
                  (List.length
                     (updates_of (App.body_of_updates (status_set o)))) 0).
      { simpl. eexists; eexists. split; [reflexivity|]. split.
        - left. split; reflexivity.
        - left. reflexivity. }
      destruct (first_violation rowid_of_text _ _ (books s)).
      { simpl. eexists; eexists. split; [reflexivity|]. split.
        - left. split; reflexivity.
        - left. reflexivity. }
      destruct (filter (fun r => matches (number_to_string id) r) (books s)).
      { simpl. eexists; eexists. split; [reflexivity|]. split.
        - left. split; reflexivity.
        - left. reflexivity. }
      simpl. eexists; eexists. split; [reflexivity|]. split.
      * right. right. right. left. exists id, o. split; reflexivity.
      * left. reflexivity.
    + eexists; eexists. split; [reflexivity|]. split.
      * left. split; reflexivity.
      * left. reflexivity.
  - (* ClickDelete *)
    unfold settle, exchange. destruct online; simpl.
    + rewrite delete_books_outcome.
      destruct (filter (fun r => matches (number_to_string id) r) (books s)).
      { simpl. eexists; eexists. split; [reflexivity|]. split.
        - left. split; reflexivity.
        - left. reflexivity. }
      simpl. eexists; eexists. split; [reflexivity|]. split.
      * right. right. right. right. exists id. split; reflexivity.
      * left. reflexivity.
    + eexists; eexists. split; [reflexivity|]. split.
      * left. split; reflexivity.
      * left. reflexivity.
Qed.

Lemma Forall2_map_if {A B : Type} (R : A -> B -> Prop) (p : A -> bool)
    (q : B -> bool) (f : A -> A) (g : B -> B) (l1 : list A) (l2 : list B) :
  (forall a b, R a b -> p a = q b) ->
  (forall a b, R a b -> R (f a) (g b)) ->
  Forall2 R l1 l2 ->
  Forall2 R (map (fun a => if p a then f a else a) l1)
    (map (fun b => if q b then g b else b) l2).
Proof.
  intros Hpq Hfg. induction 1 as [|a b l1 l2 Hab Hl IH]; simpl; constructor.
  - rewrite (Hpq a b Hab). destruct (q b); [apply Hfg|]; exact Hab.
  - exact IH.
Qed.

Lemma Forall2_filter {A B : Type} (R : A -> B -> Prop) (p : A -> bool)
    (q : B -> bool) (l1 : list A) (l2 : list B) :
  (forall a b, R a b -> p a = q b) ->
  Forall2 R l1 l2 -> Forall2 R (filter p l1) (filter q l2).
Proof.
  intros Hpq. induction 1 as [|a b l1 l2 Hab Hl IH]; simpl.
  - constructor.
  - rewrite (Hpq a b Hab). destruct (q b); [constructor|]; assumption.
Qed.

Lemma status_set_defined (o : App.StatusOption) (c : Column) :
  App.update_key c (status_set o) <> Some JsUndefined.
Proof. destruct c; simpl; discriminate. Qed.

(** X8.  Mounting the component with the server in reach loads the whole
    table: the client's list becomes the rows of the table, in table order,
    each as its JSON reads, whatever the list held before; the store is not
    touched, the loading flag is down and no error is up. *)
Theorem mount_loads_table (s : Store) (st : App.State) :
  exists st',
    act true (s, st) App.Mount = Some (s, st') /\
    App.books st' = map book_of_row (books s) /\
    mirror (App.books st') s /\
    App.loading st' = false /\ App.error st' = None.
Proof.
  eexists. split; [reflexivity|]. simpl.
  split; [reflexivity|]. split; [apply mirror_book_of_row|].
  split; reflexivity.
Qed.

(** X10.  The client's list keeps standing for the table.  If SQLite reads
    the decimal numeral of an id as that id, and the list mirrors the table,
    then after any sequence of user actions, each served to the end before
    the next and with the network up or down at each, every handler has run
    to its end and the list mirrors the table again. *)
Theorem session_keeps_mirror (s : Store) (st : App.State)
    (evs : list (bool * App.Event)) :
  (forall n, rowid_of_text (number_to_string n) = Some n) ->
  mirror (App.books st) s ->
  exists s' st',
    play (s, st) evs = Some (s', st') /\ mirror (App.books st') s'.
Proof.
  intros Hnum. revert s st.
  induction evs as [|[online ev] evs IH]; intros s st Hm.
  - exists s, st. split; [reflexivity | exact Hm].
  - destruct (step_effect online s st ev) as [s1 [st1 [Hstep [Heff _]]]].
    simpl. rewrite Hstep. apply IH. unfold mirror in *.
    destruct Heff as [[-> ->]|[[-> ->]|[[row [book [-> [-> [Hb _]]]]]|
                     [[id [o [-> ->]]]|[id [-> ->]]]]]].
    + exact Hm.
    + apply mirror_book_of_row.
    + apply Forall2_app; [exact Hm|]. constructor; [exact Hb | constructor].
    + apply Forall2_map_if; [| |exact Hm].
      * intros b r [Hid _]. unfold id_matches. rewrite Hnum, Hid. reflexivity.
      * intros b r Hbr. apply spread_mirrors; [|exact Hbr].
        apply status_set_defined.
    + apply Forall2_filter; [|exact Hm].
      intros b r [Hid _]. unfold id_matches. rewrite Hnum, Hid. reflexivity.
Qed.

Lemma option_value_enumerated (o : App.StatusOption) :
  In (App.option_value o) status_enumeration.
Proof. destruct o; simpl; auto. Qed.

(** X11.  Through the user interface the invariant of the data model
    holds.  If every row has a non-empty title and a status of the
    enumeration, and the status of the add form is one of the enumeration,
    then after any sequence of user actions both are so again: the form
    and the cards offer no other status, and no action rewrites a
    title. *)
Theorem session_keeps_data_model (s : Store) (st : App.State)
    (evs : list (bool * App.Event)) :
  Forall data_model_invariant (books s) ->
  In (App.newBookStatus st) status_enumeration ->
  exists s' st',
    play (s, st) evs = Some (s', st') /\
    Forall data_model_invariant (books s') /\
    In (App.newBookStatus st') status_enumeration.
Proof.
  revert s st. induction evs as [|[online ev] evs IH]; intros s st Hrows Hform.
  - exists s, st. split; [reflexivity|]. split; assumption.
  - destruct (step_effect online s st ev) as [s1 [st1 [Hstep [Heff Hst]]]].
    simpl. rewrite Hstep. apply IH.
    + destruct Heff as [[-> _]|[[-> _]|[[row [book [-> [_ [_ [Ht Hs]]]]]]|
                       [[id [o [-> _]]]|[id [-> _]]]]]].
      * exact Hrows.
      * exact Hrows.
      * apply Forall_app. split; [exact Hrows|].
        constructor; [|constructor]. split; [exact Ht|].
        exists (App.newBookStatus st). split; assumption.
      * rewrite Forall_forall in *. intros r' Hr'.
        apply in_map_iff in Hr'. destruct Hr' as [r [<- Hr]].
        destruct (matches (number_to_string id) r); [|apply Hrows; exact Hr].
        destruct (Hrows r Hr) as [Ht _]. split.
        -- simpl. exact Ht.
        -- simpl. exists (App.option_value o). split; [reflexivity|].
           apply option_value_enumerated.
      * rewrite Forall_forall in *. intros r Hr. apply filter_In in Hr.
        apply Hrows. tauto.
    + destruct Hst as [->|[o ->]]; [exact Hform|].
      apply option_value_enumerated.
Qed.


(** X12.  Two submits from one render lose a book on the client.  When the
    add form is submitted twice before the first response is back, both
    handlers hold the list of the same render: the server stores two rows,
    and once both responses are in the client's list holds the old books
    and the second new one only, so it no longer mirrors the table. *)
Theorem double_submit_loses_book (s : Store) (st : App.State) :
  mirror (App.books st) s ->
  truthy (App.newBookTitle st) = true -> App.newBookStatus st <> "" ->
  let body := App.bookData st in
  let first := post_books s body in
  let second := post_books (fst first) body in
  exists row1 row2 book1 book2 st1 st2,
    App.handleAddBook_finish st (App.Responded (snd first))
      (fst (App.handleAddBook_start st)) = Some st1 /\
    App.handleAddBook_finish st (App.Responded (snd second)) st1 = Some st2 /\
    books (fst second) = (books s ++ [row1; row2])%list /\
    App.books st1 = (App.books st ++ [book1])%list /\
    App.books st2 = (App.books st ++ [book2])%list /\
    mirrors book1 row1 /\ mirrors book2 row2 /\
    Book.id row2 = Book.id row1 + 1 /\
    ~ mirror (App.books st2) (fst second).
Proof.
  intros Hm Ht Hs body first second. subst first second body.
  assert (Hst : truthy (Body.status (App.bookData st)) = true).
  { simpl. apply negb_true_iff. apply String.eqb_neq. exact Hs. }
  rewrite (post_books_accepted s (App.bookData st) Ht Hst). cbn [fst snd].
  rewrite (post_books_accepted _ (App.bookData st) Ht Hst).
  cbn [fst snd books sqlite_sequence].
  do 6 eexists.
  split; [reflexivity|]. split; [reflexivity|].
  split; [rewrite <- app_assoc; reflexivity|].
  split; [reflexivity|]. split; [reflexivity|].
  split; [split; [reflexivity | intros c; destruct c; reflexivity]|].
  split; [split; [reflexivity | intros c; destruct c; reflexivity]|].
  split; [reflexivity|].
  intros Hbad. apply Forall2_length in Hbad. apply Forall2_length in Hm.
  simpl in Hbad. rewrite !length_app in Hbad. simpl in Hbad. lia.
Qed.

(** X13.  A blank query goes nowhere, and a query that is sent is never
    turned down for want of [q].  When the trimmed query is empty the
    handler sends no request and empties the search results; when it sends
    one, the query is the untrimmed text, it is not empty, and the server
    does not answer that [q] is required. *)
Theorem search_query_never_missing (st : App.State) :
  trim "" = "" ->
  (trim (App.searchQuery st) = "" ->
   App.handleSearchBooks_start trim st = (App.setSearchResults [] st, None)) /\
  (forall st1 req,
     App.handleSearchBooks_start trim st = (st1, Some req) ->
     req = SearchBooks (Some (App.searchQuery st)) /\
     App.searchQuery st <> "" /\
     json (search (Some (App.searchQuery st)))
     <> JError "Search query (q) is required.").
Proof.
  intros Htrim. unfold App.handleSearchBooks_start. split.
  - intros ->. reflexivity.
  - intros st1 req.
    destruct (String.eqb (trim (App.searchQuery st)) "") eqn:E;
      [discriminate|].
    intros H. injection H as _ <-. split; [reflexivity|].
    assert (Hq : App.searchQuery st <> "").
    { intros Hq. rewrite Hq, Htrim in E. discriminate. }
    split; [exact Hq|].
    unfold search_books. simpl.
    pose proof Hq as Hq'. apply String.eqb_neq in Hq'. rewrite Hq'. simpl.
    destruct GOOGLE_BOOKS_API_KEY as [key|]; [|discriminate].
    destruct (negb (truthy_opt (Some key))); [discriminate|].
    destruct (fetch _) as [m|response]; [discriminate|].
    destruct (negb (Fetch.ok response)); [simpl; discriminate|].
    destruct (Fetch.json response); discriminate.
Qed.

(** X14.  A search result put into the form with "Use This" passes the
    server's check of the title.  For every result of a search that was
    answered 200, and every form whose status is not empty, submitting
    after "Use This" is answered 201, and the row stored has the result's
    title, which is not empty, its author and its cover. *)
Theorem used_result_is_accepted (s : Store) (st : App.State)
    (q : option string) (found : list Found.t) (result : Found.t) :
  search q = mkResponse 200 (JFound found) -> In result found ->
  App.newBookStatus st <> "" ->
  exists row t,
    post_books s (App.bookData (App.useThis result st)) =
      (mkStore (books s ++ [row]) (sqlite_sequence s + 1),
       mkResponse 201
         (JBook (sqlite_sequence s + 1) (Found.title result)
            (JsString (Found.author result))
            (JsString (App.newBookStatus st))
            (JsString (App.newBookNotes st)) (Found.coverImageUrl result))) /\
    Found.title result = JsString t /\ t <> "" /\
    Book.title row = Some t /\
    Book.author row = Some (Found.author result) /\
    Book.coverImageUrl row = bind (Found.coverImageUrl result).
Proof.
  intros Hsearch Hin Hs.
  assert (H200 : statusCode (search q) = 200) by (rewrite Hsearch; reflexivity).
  destruct (search_ok_only_if GOOGLE_BOOKS_API_KEY encodeURIComponent fetch
              q H200)
    as [query [key [response [data [_ [_ [_ [_ [_ [_ [_ Hbody]]]]]]]]]]].
  rewrite Hbody in Hsearch. injection Hsearch as <-.
  apply in_map_iff in Hin. destruct Hin as [item [<- _]].
  assert (Ht : truthy (Found.title (found_of_item item)) = true).
  { unfold found_of_item, Js.or. simpl.
    destruct (truthy (Volume.title (Volume.volumeInfo item))) eqn:E;
      [exact E | reflexivity]. }
  assert (Hst : truthy (JsString (App.newBookStatus st)) = true).
  { simpl. apply negb_true_iff. apply String.eqb_neq. exact Hs. }
  destruct (truthy_true_string _ Ht) as [t [Et Nt]].
  eexists. exists t. split.
  - rewrite (post_books_accepted s
               (App.bookData (App.useThis (found_of_item item) st)) Ht Hst).
    reflexivity.
  - split; [exact Et|]. split; [exact Nt|]. split; [|split; reflexivity].
    change (bind (Found.title (found_of_item item)) = Some t).
    rewrite Et. reflexivity.
Qed.

Lemma bucket_membership (o : App.StatusOption) (l : list Client.Book)
    (b : Client.Book) :
  In b (bucket o (fst (Client.categorizedBooks l))) <->
  In b l /\ Client.status b = JsString (App.option_value o).
Proof.
  destruct o; simpl; rewrite filter_In; unfold strict_eq_string;
    (split; intros [Hin H]; (split; [exact Hin|]));
    destruct (Client.status b) as [| |x]; try discriminate;
    try (apply String.eqb_eq in H; subst; reflexivity);
    injection H as ->; reflexivity.
Qed.

Lemma option_value_injective (a b : App.StatusOption) :
  App.option_value a = App.option_value b -> a = b.
Proof. destruct a, b; simpl; intros H; try reflexivity; discriminate. Qed.

(** X15.  Choosing a status on a card moves the book.  When the update was
    answered ok, every book of the new list under that id lies in the
    bucket of the chosen status and in no other bucket; every book under
    another id lies in the buckets it lay in; and the list is as long as
    before. *)
Theorem card_status_moves_book (captured st : App.State) (id : Z)
    (o : App.StatusOption) (response : Response) :
  App.ok response = true ->
  exists st',
    App.handleUpdateBook_finish captured id (status_set o)
      (App.Responded response) st = Some st' /\
    List.length (App.books st') = List.length (App.books captured) /\
    (forall b, In b (App.books st') -> Client.id b = id ->
       forall o',
         In b (bucket o' (fst (Client.categorizedBooks (App.books st'))))
         <-> o' = o) /\
    (forall b, Client.id b <> id ->
       forall o',
         In b (bucket o' (fst (Client.categorizedBooks (App.books st'))))
         <-> In b (bucket o'
                     (fst (Client.categorizedBooks (App.books captured))))).
Proof.
  intros Hok. unfold App.handleUpdateBook_finish. rewrite Hok. cbn [negb].
  eexists. split; [reflexivity|].
  cbn [App.books App.setLoading App.showMessage App.setMessage App.setBooks].
  split; [apply length_map|]. split.
  - intros b Hin Hid o'. rewrite bucket_membership.
    assert (Hs : Client.status b = JsString (App.option_value o)).
    { apply in_map_iff in Hin. destruct Hin as [x [Hx _]].
      destruct (Client.id x =? id) eqn:E.
      - subst b. reflexivity.
      - subst b. apply Z.eqb_neq in E. contradiction. }
    rewrite Hs. split.
    + intros [_ H]. injection H as H. symmetry.
      apply option_value_injective. exact H.
    + intros ->. split; [exact Hin | reflexivity].
  - intros b Hid o'. rewrite !bucket_membership.
    assert (Hsame : In b (map (fun book => if Client.id book =? id
                                           then App.spread book (status_set o)
                                           else book) (App.books captured))
                    <-> In b (App.books captured)).
    { rewrite in_map_iff. split.
      - intros [x [Hx Hin]]. destruct (Client.id x =? id) eqn:E.
        + subst b. apply Z.eqb_eq in E. contradiction.
        + subst b. exact Hin.
      - intros Hin. exists b. split; [|exact Hin].
        apply Z.eqb_neq in Hid. rewrite Hid. reflexivity. }
    rewrite Hsame. reflexivity.
Qed.

(** X16.  A book is shown only if its status is one of the three.  A book
    of the collection lies in one of the three buckets exactly when its
    status is a string of the enumeration; a book with any other status,
    as the server accepts them, lies in none. *)
Theorem shown_iff_status_enumerated (l : list Client.Book) (b : Client.Book) :
  In b l ->
  ((exists o, In b (bucket o (fst (Client.categorizedBooks l)))) <->
   exists st, Client.status b = JsString st /\ In st status_enumeration).
Proof.
  intros Hin. split.
  - intros [o Ho]. apply bucket_membership in Ho. destruct Ho as [_ Hs].
    exists (App.option_value o). split; [exact Hs|].
    apply option_value_enumerated.
  - intros [st [Hs Hst]]. simpl in Hst.
    destruct Hst as [<-|[<-|[<-|[]]]].
    + exists App.OptWantToRead. apply bucket_membership. auto.
    + exists App.OptReading. apply bucket_membership. auto.
    + exists App.OptFinished. apply bucket_membership. auto.
Qed.


(** X17.  What the user reads when the server turns a request down.  A
    submit without a title is answered 400 and shows the server's own
    text.  A delete or a status change for an id that no row answers to is
    answered 404, whose body has a [message] and no [error], so the text
    shown is the fallback with the status number.  In each case the store
    and the client's list stay as they were. *)
Theorem server_errors_as_shown (s : Store) (st : App.State) (id : Z) :
  (missing_or_empty (App.newBookTitle st) ->
   exists st',
     act true (s, st) App.SubmitForm = Some (s, st') /\
     App.error st' =
       Some "Failed to add book: Title and Status are required." /\
     App.books st' = App.books st) /\
  (no_row_matches rowid_of_text (number_to_string id) s ->
   (exists st',
      act true (s, st) (App.ClickDelete id) = Some (s, st') /\
      App.error st' = Some "Failed to delete book: HTTP error! status: 404" /\
      App.books st' = App.books st) /\
   (forall o,
      exists st',
        act true (s, st) (App.SelectCardStatus id o) = Some (s, st') /\
        App.error st' = Some "Failed to update book: HTTP error! status: 404"
        /\ App.books st' = App.books st)).
Proof.
  split.
  - intros Ht. simpl. unfold settle, exchange. simpl.
    rewrite (post_books_rejected s (App.bookData st) (or_introl Ht)). simpl.
    eexists. split; [reflexivity|]. split; reflexivity.
  - intros Hu. split.
    + simpl. unfold settle, exchange. simpl.
      rewrite delete_books_outcome.
      rewrite (filter_no_match rowid_of_text _ _ Hu). simpl.
      eexists. split; [reflexivity|]. split; reflexivity.
    + intros o. simpl. unfold settle, exchange. simpl.
      rewrite (put_books_not_found rowid_of_text s (number_to_string id)
                 (App.body_of_updates (status_set o))); [|
        intros H; specialize (H ColStatus); discriminate H | exact Hu].
      simpl. eexists. split; [reflexivity|]. split; reflexivity.
Qed.


End SystemProperties.

(** * The further properties at concrete requests *)

Lemma numeral_rowid_number_to_string (n : Z) :
  numeral_rowid (number_to_string n) = Some n.
Proof.
  unfold numeral_rowid, number_to_string.
  rewrite NilZero.isi.
  - simpl. rewrite DecimalZ.of_to. reflexivity.
  - destruct n as [|p|p]; simpl; try discriminate.
    intros H. injection H as H. exact (Unsigned.to_uint_nonnil p H).
  - destruct n as [|p|p]; simpl; try discriminate.
    intros H. injection H as H. exact (Unsigned.to_uint_nonnil p H).
Defined.

Example number_to_string_examples :
  number_to_string 404 = "404" /\ number_to_string 12 = "12" /\
  numeral_rowid "12" = Some 12 /\ numeral_rowid "twelve" = None /\
  trim_ascii "  dune " = "dune" /\ trim_ascii "   " = "".
Proof. repeat split; reflexivity. Qed.

Lemma two_books_data_model : Forall data_model_invariant (books two_books).
Proof.
  repeat constructor; simpl;
    try (eexists; split; [reflexivity | discriminate]);
    eexists; (split; [reflexivity|]); simpl; auto.
Defined.

Lemma loaded_mirrors_two_books : mirror (App.books loaded) two_books.
Proof. exact (mirror_book_of_row two_books). Defined.

Lemma update_outcomes_witness :
  reachable decimal_rowid no_key plain_uri upstream_down two_books /\
  statusCode (snd (put_books decimal_rowid two_books "1" (only_status "Reading")))
    = 200 /\
  (statusCode
     (snd (put_books decimal_rowid two_books "2"
             (Body.mk JsNull JsUndefined JsUndefined JsUndefined JsUndefined)))
     = 500 <->
   ~ no_recognized_fields
       (Body.mk JsNull JsUndefined JsUndefined JsUndefined JsUndefined) /\
   (exists r, In r (books two_books) /\ id_matches decimal_rowid "2" r = true)
   /\ (Body.title
         (Body.mk JsNull JsUndefined JsUndefined JsUndefined JsUndefined)
       = JsNull \/
       Body.status
         (Body.mk JsNull JsUndefined JsUndefined JsUndefined JsUndefined)
       = JsNull)).
Proof.
  split; [exact two_books_reachable|]. split; [reflexivity|].
  exact (proj1 (proj2 (proj2
           (update_outcomes decimal_rowid no_key plain_uri upstream_down
              two_books "2"
              (Body.mk JsNull JsUndefined JsUndefined JsUndefined JsUndefined)
              two_books_reachable)))).
Defined.

Lemma ids_never_reused_witness :
  (reachable decimal_rowid no_key plain_uri upstream_down two_books /\
   In (Book.mkRow 1 (Some "Dune") (Some "Frank Herbert") (Some "Want to Read")
         None None) (books two_books) /\
   statusCode
     (snd (post_books
             (run decimal_rowid no_key plain_uri upstream_down two_books
                [DeleteBooks "1"; DeleteBooks "2"]) dune)) = 201) /\
  exists newid,
    snd (post_books
           (run decimal_rowid no_key plain_uri upstream_down two_books
              [DeleteBooks "1"; DeleteBooks "2"]) dune) =
      mkResponse 201
        (JBook newid (Body.title dune) (Body.author dune) (Body.status dune)
           (Body.notes dune) (Body.coverImageUrl dune)) /\
    1 < newid /\
    Forall (fun x => Book.id x < newid)
      (books (run decimal_rowid no_key plain_uri upstream_down two_books
                [DeleteBooks "1"; DeleteBooks "2"])).
Proof.
  split; [split; [exact two_books_reachable
                 | split; [left; reflexivity | reflexivity]]|].
  exact (ids_never_reused decimal_rowid no_key plain_uri upstream_down
           two_books
           (Book.mkRow 1 (Some "Dune") (Some "Frank Herbert")
              (Some "Want to Read") None None)
           [DeleteBooks "1"; DeleteBooks "2"] dune two_books_reachable
           (or_introl eq_refl) eq_refl).
Defined.

Lemma create_then_delete_witness :
  (reachable decimal_rowid no_key plain_uri upstream_down two_books /\
   statusCode (snd (post_books two_books dune)) = 201 /\
   decimal_rowid "3" = Some (sqlite_sequence two_books + 1)) /\
  delete_books decimal_rowid (fst (post_books two_books dune)) "3" =
    (mkStore (books two_books) (sqlite_sequence two_books + 1),
     mkResponse 200 (JMessageId "Book deleted successfully." "3")).
Proof.
  split; [split; [exact two_books_reachable | split; reflexivity]|].
  exact (create_then_delete decimal_rowid no_key plain_uri upstream_down
           two_books dune "3" two_books_reachable eq_refl eq_refl).
Defined.

Lemma update_then_list_witness :
  (statusCode
     (snd (put_books decimal_rowid two_books "1" (only_status "Reading"))) = 200
   /\ Body.status (only_status "Reading") = JsString "Reading"
   /\ "Reading" <> "") /\
  exists rows,
    snd (get_books
           (fst (put_books decimal_rowid two_books "1" (only_status "Reading")))
           (Some "Reading")) = mkResponse 200 (JRows rows) /\
    In (Book.mkRow 1 (Some "Dune") (Some "Frank Herbert") (Some "Reading")
          None None) rows.
Proof.
  assert (Hne : "Reading" <> "") by discriminate.
  split; [split; [reflexivity | split; [reflexivity | exact Hne]]|].
  exact (proj1 (update_then_list decimal_rowid two_books "1"
                  (only_status "Reading") "Reading" eq_refl eq_refl Hne
                  (Book.mkRow 1 (Some "Dune") (Some "Frank Herbert")
                     (Some "Reading") None None)
                  (or_introl eq_refl) eq_refl)).
Defined.

Lemma search_ok_iff_witness :
  (exists query key response data,
     Some "dune" = Some query /\ query <> "" /\
     some_key = Some key /\ key <> "" /\
     upstream_ok two_volumes (googleBooksApiUrl plain_uri query key) =
       Fetch.Resolves response /\
     Fetch.ok response = true /\ Fetch.json response = Some data) /\
  statusCode
    (search_books some_key plain_uri (upstream_ok two_volumes) (Some "dune"))
    = 200.
Proof.
  assert (H : exists query key response data,
            Some "dune" = Some query /\ query <> "" /\
            some_key = Some key /\ key <> "" /\
            upstream_ok two_volumes (googleBooksApiUrl plain_uri query key) =
              Fetch.Resolves response /\
            Fetch.ok response = true /\ Fetch.json response = Some data).
  { exists "dune", "k3y", (Fetch.mkResponse 200 "OK" (Some two_volumes)),
      two_volumes.
    repeat split; try reflexivity; discriminate. }
  split; [exact H|].
  exact (proj2 (search_ok_iff some_key plain_uri (upstream_ok two_volumes)
                  (Some "dune")) H).
Defined.

Lemma failed_request_keeps_data_witness :
  unsuccessful (App.Responded (mkResponse 404 (JMessage "Book not found."))) /\
  exists st',
    App.handleDeleteBook_finish loaded 7
      (App.Responded (mkResponse 404 (JMessage "Book not found."))) loaded
    = Some st' /\
    reports_failure st' loaded.
Proof.
  split; [reflexivity|].
  exact (proj2 (proj2 (proj2 (proj2
           (failed_request_keeps_data loaded loaded
              (App.Responded (mkResponse 404 (JMessage "Book not found.")))
              7 (App.status_update "Reading") eq_refl))))).
Defined.

Lemma session_keeps_mirror_witness :
  ((forall n, numeral_rowid (number_to_string n) = Some n) /\
   mirror (App.books form_filled) two_books) /\
  exists s' st',
    session numeral_rowid no_key plain_uri upstream_down trim_ascii
      (two_books, form_filled)
      [(true, App.SubmitForm); (true, App.SelectCardStatus 1 App.OptFinished);
       (false, App.ClickDelete 2); (true, App.ClickDelete 2)]
    = Some (s', st') /\
    mirror (App.books st') s'.
Proof.
  split; [split; [exact numeral_rowid_number_to_string
                 | exact loaded_mirrors_two_books]|].
  exact (session_keeps_mirror numeral_rowid no_key plain_uri upstream_down
           trim_ascii two_books form_filled _ numeral_rowid_number_to_string
           loaded_mirrors_two_books).
Defined.

Lemma session_keeps_data_model_witness :
  (Forall data_model_invariant (books two_books) /\
   In (App.newBookStatus form_filled) status_enumeration) /\
  exists s' st',
    session numeral_rowid no_key plain_uri upstream_down trim_ascii
      (two_books, form_filled)
      [(true, App.SubmitForm); (true, App.SelectCardStatus 1 App.OptFinished);
       (true, App.ChangeTitle ""); (true, App.SubmitForm)]
    = Some (s', st') /\
    Forall data_model_invariant (books s') /\
    In (App.newBookStatus st') status_enumeration.
Proof.
  assert (Hform : In (App.newBookStatus form_filled) status_enumeration)
    by (right; left; reflexivity).
  split; [split; [exact two_books_data_model | exact Hform]|].
  exact (session_keeps_data_model numeral_rowid no_key plain_uri upstream_down
           trim_ascii two_books form_filled _ two_books_data_model Hform).
Defined.

Lemma double_submit_loses_book_witness :
  (mirror (App.books form_filled) two_books /\
   truthy (App.newBookTitle form_filled) = true /\
   App.newBookStatus form_filled <> "") /\
  exists st1 st2,
    App.handleAddBook_finish form_filled
      (App.Responded (snd (post_books two_books (App.bookData form_filled))))
      (fst (App.handleAddBook_start form_filled)) = Some st1 /\
    App.handleAddBook_finish form_filled
      (App.Responded
         (snd (post_books
                 (fst (post_books two_books (App.bookData form_filled)))
                 (App.bookData form_filled)))) st1 = Some st2 /\
    ~ mirror (App.books st2)
        (fst (post_books
                (fst (post_books two_books (App.bookData form_filled)))
                (App.bookData form_filled))).
Proof.
  assert (Hs : App.newBookStatus form_filled <> "") by discriminate.
  split; [split; [exact loaded_mirrors_two_books | split;
                  [reflexivity | exact Hs]]|].
  destruct (double_submit_loses_book two_books form_filled
              loaded_mirrors_two_books eq_refl Hs)
    as [row1 [row2 [book1 [book2 [st1 [st2 [H1 [H2 [_ [_ [_ [_ [_ [_ H]]]]]]]]]]]]]].
  exists st1, st2. split; [exact H1|]. split; [exact H2 | exact H].
Defined.

Lemma search_query_never_missing_witness :
  trim_ascii "" = "" /\
  (trim_ascii (App.searchQuery (App.setSearchQuery "   " loaded)) = "" ->
   App.handleSearchBooks_start trim_ascii (App.setSearchQuery "   " loaded) =
     (App.setSearchResults [] (App.setSearchQuery "   " loaded), None)).
Proof.
  split; [reflexivity|].
  exact (proj1 (search_query_never_missing some_key plain_uri
                  (upstream_ok two_volumes) trim_ascii
                  (App.setSearchQuery "   " loaded) eq_refl)).
Defined.

Lemma used_result_is_accepted_witness :
  (search_books some_key plain_uri (upstream_ok two_volumes) (Some "dune") =
     mkResponse 200
       (JFound (map found_of_item (items_of two_volumes))) /\
   In (found_of_item untitled_volume)
     (map found_of_item (items_of two_volumes)) /\
   App.newBookStatus loaded <> "") /\
  exists row t,
    post_books two_books
      (App.bookData (App.useThis (found_of_item untitled_volume) loaded)) =
      (mkStore (books two_books ++ [row]) (sqlite_sequence two_books + 1),
       mkResponse 201
         (JBook (sqlite_sequence two_books + 1)
            (Found.title (found_of_item untitled_volume))
            (JsString (Found.author (found_of_item untitled_volume)))
            (JsString (App.newBookStatus loaded))
            (JsString (App.newBookNotes loaded))
            (Found.coverImageUrl (found_of_item untitled_volume)))) /\
    Found.title (found_of_item untitled_volume) = JsString t /\ t <> "" /\
    Book.title row = Some t /\
    Book.author row = Some (Found.author (found_of_item untitled_volume)) /\
    Book.coverImageUrl row =
      bind (Found.coverImageUrl (found_of_item untitled_volume)).
Proof.
  assert (Hs : App.newBookStatus loaded <> "") by discriminate.
  split; [split; [reflexivity | split; [right; left; reflexivity | exact Hs]]|].
  exact (used_result_is_accepted some_key plain_uri (upstream_ok two_volumes)
           two_books loaded (Some "dune") _ (found_of_item untitled_volume)
           eq_refl (or_intror (or_introl eq_refl)) Hs).
Defined.

Lemma card_status_moves_book_witness :
  App.ok (mkResponse 200 (JMessageId "Book updated successfully." "1")) = true
  /\ exists st',
       App.handleUpdateBook_finish loaded 1
         (App.status_update (App.option_value App.OptFinished))
         (App.Responded
            (mkResponse 200 (JMessageId "Book updated successfully." "1")))
         loaded = Some st' /\
       List.length (App.books st') = List.length (App.books loaded).
Proof.
  split; [reflexivity|].
  destruct (card_status_moves_book loaded loaded 1 App.OptFinished
              (mkResponse 200 (JMessageId "Book updated successfully." "1"))
              eq_refl) as [st' [H1 [H2 _]]].
  exists st'. split; [exact H1 | exact H2].
Defined.

Lemma shown_iff_status_enumerated_witness :
  In (Client.mkBook 2 (JsString "Emma") JsNull (JsString "Finished") JsNull
        JsNull) shelf /\
  ((exists o,
      In (Client.mkBook 2 (JsString "Emma") JsNull (JsString "Finished") JsNull
            JsNull)
        (bucket o (fst (Client.categorizedBooks shelf)))) <->
   exists st,
     Client.status
       (Client.mkBook 2 (JsString "Emma") JsNull (JsString "Finished") JsNull
          JsNull) = JsString st /\ In st status_enumeration).
Proof.
  assert (Hin : In (Client.mkBook 2 (JsString "Emma") JsNull
                      (JsString "Finished") JsNull JsNull) shelf)
    by (right; left; reflexivity).
  split; [exact Hin|].
  exact (shown_iff_status_enumerated shelf _ Hin).
Defined.

Lemma reachable_ids_increasing_witness :
  reachable decimal_rowid no_key plain_uri upstream_down two_books /\
  StronglySorted Z.lt (map Book.id (books two_books)) /\
  NoDup (map Book.id (books two_books)) /\
  Forall (fun r => 0 < Book.id r <= sqlite_sequence two_books)
    (books two_books).
Proof.
  split; [exact two_books_reachable|].
  exact (reachable_ids_increasing decimal_rowid no_key plain_uri upstream_down
           two_books two_books_reachable).
Defined.

Lemma two_books_no_seven_numeral :
  no_row_matches numeral_rowid (number_to_string 7) two_books.
Proof.
  intros r [<-|[<-|[]]]; reflexivity.
Defined.

Lemma server_errors_as_shown_witness :
  (missing_or_empty (App.newBookTitle loaded) /\
   no_row_matches numeral_rowid (number_to_string 7) two_books) /\
  (exists st',
     step numeral_rowid no_key plain_uri upstream_down trim_ascii true
       (two_books, loaded) App.SubmitForm = Some (two_books, st') /\
     App.error st' =
       Some "Failed to add book: Title and Status are required." /\
     App.books st' = App.books loaded) /\
  (exists st',
     step numeral_rowid no_key plain_uri upstream_down trim_ascii true
       (two_books, loaded) (App.ClickDelete 7) = Some (two_books, st') /\
     App.error st' = Some "Failed to delete book: HTTP error! status: 404" /\
     App.books st' = App.books loaded).
Proof.
  assert (Ht : missing_or_empty (App.newBookTitle loaded))
    by (right; right; reflexivity).
  split; [split; [exact Ht | exact two_books_no_seven_numeral]|].
  destruct (server_errors_as_shown numeral_rowid no_key plain_uri upstream_down
              trim_ascii two_books loaded 7) as [Hadd Hmiss].
  split; [exact (Hadd Ht)|].
  exact (proj1 (Hmiss two_books_no_seven_numeral)).
Defined.

(** * Create on every JSON body *)

Lemma wire_truthy_false_iff (v : Wire.Value) :
  Wire.truthy v = false <-> wire_falsy v.
Proof.
  unfold wire_falsy, wire_missing_or_empty.
  destruct v as [| |b|n|s|source]; simpl.
  - intuition.
  - intuition.
  - destruct b; split; auto.
    + discriminate.
    + intros [[H|[H|H]]|[H|[n [H _]]]]; discriminate H.
  - rewrite negb_false_iff, Z.eqb_eq. split.
    + intros H. right. right. exists n. split; [reflexivity|].
      unfold QArith_base.Qeq. simpl. rewrite H. reflexivity.
    + intros [[H|[H|H]]|[H|[m [H Hm]]]]; try discriminate H.
      injection H as <-. unfold QArith_base.Qeq in Hm. simpl in Hm. lia.
  - rewrite negb_false_iff, String.eqb_eq. split.
    + intros ->. auto.
    + intros [[H|[H|H]]|[H|[n [H _]]]]; try discriminate H.
      injection H as ->. reflexivity.
  - split; [discriminate|].
    intros [[H|[H|H]]|[H|[n [H _]]]]; discriminate H.
Qed.

Section PostJsonProperties.

Variable driver_text : Wire.Value -> string.
Variable rowid_of_text : string -> option Z.
Variable GOOGLE_BOOKS_API_KEY : option string.
Variable encodeURIComponent : string -> string.
Variable fetch : string -> Fetch.Outcome.

Local Abbreviation post := (post_books_json driver_text).
Local Abbreviation bound := (bind_value driver_text).
Local Abbreviation reach :=
  (reachable_json driver_text rowid_of_text GOOGLE_BOOKS_API_KEY
     encodeURIComponent fetch).

Lemma bind_value_truthy (v : Wire.Value) :
  Wire.truthy v = true -> bound v <> None.
Proof. destruct v; simpl; discriminate. Qed.

Lemma post_books_json_cases (body : Wire.Body) :
  (wire_falsy (Wire.title body) \/ wire_falsy (Wire.status body)) \/
  (Wire.truthy (Wire.title body) = true /\
   Wire.truthy (Wire.status body) = true).
Proof.
  destruct (Wire.truthy (Wire.title body)) eqn:Et.
  - destruct (Wire.truthy (Wire.status body)) eqn:Es.
    + right. split; reflexivity.
    + left. right. apply wire_truthy_false_iff. exact Es.
  - left. left. apply wire_truthy_false_iff. exact Et.
Qed.

Lemma post_books_json_rejected (s : Store) (body : Wire.Body) :
  wire_falsy (Wire.title body) \/ wire_falsy (Wire.status body) ->
  post s body =
    (s, Wire.mkResponse 400 (Wire.JError "Title and Status are required.")).
Proof.
  intros H. unfold post_books_json.
  destruct H as [H|H]; apply wire_truthy_false_iff in H; rewrite H; simpl.
  - reflexivity.
  - rewrite orb_true_r. reflexivity.
Qed.

Lemma post_books_json_accepted (s : Store) (body : Wire.Body) :
  Wire.truthy (Wire.title body) = true ->
  Wire.truthy (Wire.status body) = true ->
  post s body =
    (mkStore
       (books s ++
          [Book.mkRow (sqlite_sequence s + 1) (bound (Wire.title body))
             (bound (Wire.author body)) (bound (Wire.status body))
             (bound (Wire.notes body)) (bound (Wire.coverImageUrl body))])
       (sqlite_sequence s + 1),
     Wire.mkResponse 201
       (Wire.JBook (sqlite_sequence s + 1) (Wire.title body)
          (Wire.author body) (Wire.status body) (Wire.notes body)
          (Wire.coverImageUrl body))).
Proof.
  intros Ht Hs. unfold post_books_json. rewrite Ht, Hs. simpl.
  unfold db_run_insert_cells, not_null_violation. simpl.
  pose proof (bind_value_truthy _ Ht) as Nt.
  pose proof (bind_value_truthy _ Hs) as Ns.
  destruct (bound (Wire.title body)); [|contradiction].
  destruct (bound (Wire.status body)); [|contradiction].
  reflexivity.
Qed.

(** On a body whose fields are absent, [null] or strings, the handler is
    [post_books]: same store, same status. *)
Lemma post_books_json_of_js (s : Store) (body : Body.t) :
  fst (post s (Wire.body_of_js body)) = fst (post_books s body) /\
  Wire.statusCode (snd (post s (Wire.body_of_js body)))
  = statusCode (snd (post_books s body)).
Proof.
  assert (Ht : forall v, Wire.truthy (Wire.of_js v) = truthy v)
    by (intros [| |x]; reflexivity).
  assert (Hb : forall v, bound (Wire.of_js v) = bind v)
    by (intros [| |x]; reflexivity).
  destruct (post_books_cases body) as [H|[H1 H2]].
  - rewrite (post_books_rejected s body H).
    rewrite post_books_json_rejected; [split; reflexivity|].
    destruct H as [H|H]; [left|right]; apply wire_truthy_false_iff;
      simpl; rewrite Ht; apply truthy_false_iff; exact H.
  - rewrite (post_books_accepted s body H1 H2).
    rewrite post_books_json_accepted;
      [| simpl; rewrite Ht; exact H1 | simpl; rewrite Ht; exact H2].
    simpl. rewrite !Hb. split; reflexivity.
Qed.

Lemma post_books_json_wf (s : Store) (body : Wire.Body) :
  store_wf s -> store_wf (fst (post s body)).
Proof.
  intros [Hc Hb Hs Hn].
  destruct (post_books_json_cases body) as [H|[Ht Hst]].
  - rewrite (post_books_json_rejected s body H). simpl.
    constructor; assumption.
  - rewrite (post_books_json_accepted s body Ht Hst). simpl.
    constructor; simpl.
    + lia.
    + apply Forall_app. split.
      * eapply Forall_impl; [|exact Hb]. simpl. intros r Hr. lia.
      * constructor; [|constructor]. simpl. lia.
    + rewrite map_app. simpl. apply strongly_sorted_snoc; [exact Hs|].
      rewrite Forall_forall in *. intros y Hy.
      apply in_map_iff in Hy. destruct Hy as [r [<- Hr]].
      specialize (Hb r Hr). simpl in Hb. lia.
    + apply Forall_app. split; [exact Hn|].
      constructor; [|constructor]. unfold not_null_columns. simpl.
      split; apply bind_value_truthy; assumption.
Qed.

Lemma reachable_json_wf (s : Store) : reach s -> store_wf s.
Proof.
  induction 1 as [|s req _ IH|s body _ IH].
  - apply empty_store_wf.
  - apply handle_wf. exact IH.
  - apply post_books_json_wf. exact IH.
Qed.

(** C2 (amended).  For every request body, Create answers 400 and leaves
    the store as it was exactly when title or status is falsy: missing,
    [null], the empty string, [false] or [0].  Otherwise it appends exactly
    one row, answers 201 with the Book it was given and the assigned id,
    and a List that follows returns that row, and no other, under that
    id. *)
Theorem create_contract_json (s : Store) (body : Wire.Body) :
  reach s ->
  let rejected :=
    wire_falsy (Wire.title body) \/ wire_falsy (Wire.status body) in
  let s' := fst (post s body) in
  let resp := snd (post s body) in
  (Wire.statusCode resp = 400 <-> rejected) /\
  (rejected -> s' = s) /\
  (~ rejected ->
   exists newid r,
     r = Book.mkRow newid (bound (Wire.title body)) (bound (Wire.author body))
           (bound (Wire.status body)) (bound (Wire.notes body))
           (bound (Wire.coverImageUrl body)) /\
     books s' = (books s ++ [r])%list /\
     resp = Wire.mkResponse 201
              (Wire.JBook newid (Wire.title body) (Wire.author body)
                 (Wire.status body) (Wire.notes body)
                 (Wire.coverImageUrl body)) /\
     exists rows,
       snd (get_books s' None) = mkResponse 200 (JRows rows) /\
       filter (fun x => Z.eqb (Book.id x) newid) rows = [r]).
Proof.
  intros Hr rejected s' resp. subst rejected s' resp.
  pose proof (reachable_json_wf s Hr) as Hwf.
  destruct (post_books_json_cases body) as [H|[Ht Hst]].
  - rewrite (post_books_json_rejected s body H). simpl.
    split; [tauto|]. split; [reflexivity|]. intros N. contradiction.
  - assert (N : ~ (wire_falsy (Wire.title body) \/
                   wire_falsy (Wire.status body))).
    { intros [H|H]; apply wire_truthy_false_iff in H; congruence. }
    rewrite (post_books_json_accepted s body Ht Hst). simpl.
    split; [split; [discriminate | contradiction]|].
    split; [contradiction|]. intros _.
    eexists; eexists. split; [reflexivity|]. split; [reflexivity|].
    split; [reflexivity|].
    eexists. split; [reflexivity|].
    rewrite filter_app. simpl. rewrite Z.eqb_refl.
    replace (filter (fun x => Book.id x =? sqlite_sequence s + 1) (books s))
      with (@nil Book.Row); [reflexivity|].
    symmetry. pose proof (wf_bounds s Hwf) as Hb.
    induction (books s) as [|x l IH]; [reflexivity|].
    inversion Hb as [|? ? Hx Hl]; subst. simpl.
    replace (Book.id x =? sqlite_sequence s + 1) with false
      by (symmetry; apply Z.eqb_neq; lia).
    apply IH. exact Hl.
Qed.

End PostJsonProperties.

Lemma two_books_reachable_json :
  reachable_json sample_driver_text decimal_rowid no_key plain_uri
    upstream_down two_books.
Proof.
  exact (reachable_json_handle _ _ _ _ _ _ (PostBooks emma_reading)
           (reachable_json_handle _ _ _ _ _ _ (PostBooks dune)
              (reachable_json_empty _ _ _ _ _))).
Defined.

(** C2 as stated fails: a title that is the number 0 is neither missing
    nor empty, and Create answers 400 all the same. *)
Lemma create_rejects_zero_title :
  post_books_json sample_driver_text two_books zero_title =
    (two_books,
     Wire.mkResponse 400 (Wire.JError "Title and Status are required.")) /\
  ~ (wire_missing_or_empty (Wire.title zero_title) \/
     wire_missing_or_empty (Wire.status zero_title)).
Proof.
  split; [reflexivity|].
  intros [[H|[H|H]]|[H|[H|H]]]; discriminate H.
Qed.

Example create_numeric_title :
  post_books_json sample_driver_text two_books numeric_title =
    (mkStore
       (books two_books ++
          [Book.mkRow 3 (Some "1984") (Some "George Orwell") (Some "Reading")
             None None]) 3,
     Wire.mkResponse 201
       (Wire.JBook 3 (Wire.Number (QArith_base.Qmake 1984 1))
          (Wire.Text "George Orwell") (Wire.Text "Reading") Wire.Absent
          Wire.Absent)).
Proof. reflexivity. Qed.

Lemma create_contract_json_witness :
  reachable_json sample_driver_text decimal_rowid no_key plain_uri
    upstream_down two_books /\
  (Wire.statusCode
     (snd (post_books_json sample_driver_text two_books zero_title)) = 400 <->
   wire_falsy (Wire.title zero_title) \/ wire_falsy (Wire.status zero_title))
  /\
  (Wire.statusCode
     (snd (post_books_json sample_driver_text two_books numeric_title)) = 400
   <->
   wire_falsy (Wire.title numeric_title) \/
   wire_falsy (Wire.status numeric_title)).
Proof.
  split; [exact two_books_reachable_json|]. split.
  - exact (proj1 (create_contract_json sample_driver_text decimal_rowid no_key
                    plain_uri upstream_down two_books zero_title
                    two_books_reachable_json)).
  - exact (proj1 (create_contract_json sample_driver_text decimal_rowid no_key
                    plain_uri upstream_down two_books numeric_title
                    two_books_reachable_json)).
Defined.
